(** * HelpSpot web-service client (helpspot/api.py): model and properties

    The development follows the layout of [helpspot/api.py]:
    the library functions the module calls (string methods, [base64],
    [urlencode], the request object of urllib), then [_POST_METHODS],
    [HelpSpotError], [HelpSpotHandler], [HelpSpotAPI] and [HelpSpot],
    and finally the properties.

    The module runs on two interpreters: each import and each call into
    urllib is tried under its Python 2 name first and falls back to the
    Python 3 name.  Where the two interpreters differ the model takes
    the interpreter as an argument.

    A [str] is modelled by [string].  Under Python 2 it is a byte string;
    under Python 3 it is text whose characters are code points below
    256.  Keyword arguments are strings or integers.  Calls are made
    after a [HelpSpot] client was constructed, that is, with the opener
    holding [HelpSpotHandler] installed; the server is a parameter. *)

From Stdlib Require Import ZArith NArith Ascii String DecimalString List Lia.
From stdpp Require Import base decidable option list gmap strings.

Local Open Scope Z_scope.

(** The interpreter that runs the module.  [Python2] is the branch in
    which [import urllib2] succeeds, [Python3] (3.7 or later) the one in
    which the [except ImportError] clauses run. *)
Inductive interpreter := Python2 | Python3.

(** ** String methods *)
Module Str.

Definition code (c : ascii) : Z := Z.of_N (N_of_ascii c).
Definition chr (z : Z) : ascii := ascii_of_N (Z.to_N z).

Fixpoint map (f : ascii -> ascii) (s : string) : string :=
  match s with
  | EmptyString => EmptyString
  | String c r => String (f c) (map f r)
  end.

Fixpoint flat_map (f : ascii -> string) (s : string) : string :=
  match s with
  | EmptyString => EmptyString
  | String c r => f c +:+ flat_map f r
  end.

Fixpoint forallb (p : ascii -> bool) (s : string) : bool :=
  match s with
  | EmptyString => true
  | String c r => p c && forallb p r
  end.

(** [s.replace(old, new)] for one-character [old] and [new]. *)
Definition replace (old new : ascii) (s : string) : string :=
  map (fun c => if Ascii.eqb c old then new else c) s.

(** [s.startswith(p)] *)
Definition startswith (s p : string) : bool := String.prefix p s.

(** [s.rstrip(chars)]: drop the longest suffix made of characters
    satisfying [strip]. *)
Fixpoint rstrip (strip : ascii -> bool) (s : string) : string :=
  match s with
  | EmptyString => EmptyString
  | String c r =>
      match rstrip strip r with
      | EmptyString => if strip c then EmptyString else String c EmptyString
      | r' => String c r'
      end
  end.

(** The characters [rstrip()] removes when called without argument. *)
Definition is_whitespace (c : ascii) : bool :=
  match c with
  | "009" | "010" | "011" | "012" | "013" | " " => true
  | _ => false
  end%char.

Definition is_upper (c : ascii) : bool := (65 <=? code c) && (code c <=? 90).
Definition is_lower (c : ascii) : bool := (97 <=? code c) && (code c <=? 122).
Definition is_digit (c : ascii) : bool := (48 <=? code c) && (code c <=? 57).
Definition is_alnum (c : ascii) : bool := is_upper c || is_lower c || is_digit c.

Definition upper (c : ascii) : ascii := if is_lower c then chr (code c - 32) else c.
Definition lower (c : ascii) : ascii := if is_upper c then chr (code c + 32) else c.

(** [s.capitalize()] *)
Definition capitalize (s : string) : string :=
  match s with
  | EmptyString => EmptyString
  | String c r => String (upper c) (map lower r)
  end.

(** [sep.join(l)] *)
Definition join (sep : string) (l : list string) : string := String.concat sep l.

(** [not s] *)
Definition is_empty (s : string) : bool :=
  match s with EmptyString => true | _ => false end.

(** [c in s] *)
Fixpoint contains (c : ascii) (s : string) : bool :=
  match s with
  | EmptyString => false
  | String d r => Ascii.eqb c d || contains c r
  end.

End Str.

(** ** The mutating methods (api.py, lines 61-72) *)
Definition _POST_METHODS : list string :=
  [ "request.create";
    "request.update";
    "forums.createTopic";
    "forums.createPost";
    "private.request.create";
    "private.request.update";
    "private.request.addTimeEvent";
    "private.request.deleteTimeEvent";
    "private.request.merge";
    "private.request.unsubscribe" ].

(** [x in l] for a list of strings. *)
Definition str_in (x : string) (l : list string) : bool :=
  existsb (String.eqb x) l.

(** ** Byte strings *)

(** A string value: a [str] or, under Python 3, a [bytes] object. *)
Inductive pystr :=
| Text (s : string)
| Bytes (b : string).

Module Codec.

Definition hex_digit (upper : bool) (n : Z) : ascii :=
  if n <? 10 then Str.chr (48 + n)
  else Str.chr ((if upper then 55 else 87) + n).

(** [s.encode('utf-8')] on text: one byte below 128, two bytes for the
    other code points below 256. *)
Definition utf8_char (c : ascii) : string :=
  let n := Str.code c in
  if n <? 128 then String c EmptyString
  else String (Str.chr (Z.lor 192 (Z.shiftr n 6)))
         (String (Str.chr (Z.lor 128 (Z.land n 63))) EmptyString).

Definition utf8 (s : string) : string := Str.flat_map utf8_char s.

Definition is_ascii (c : ascii) : bool := Str.code c <? 128.

(** [repr(b)] of a bytes object, which is what [str(b)] and ['%s' % b]
    give under Python 3. *)
Definition repr_quote (b : string) : ascii :=
  if Str.contains "'"%char b && negb (Str.contains "034"%char b)
  then "034"%char else "'"%char.

Definition repr_byte (quote c : ascii) : string :=
  let n := Str.code c in
  if Ascii.eqb c quote || Ascii.eqb c "\"%char then String "\"%char (String c EmptyString)
  else if n =? 9 then "\t"
  else if n =? 10 then "\n"
  else if n =? 13 then "\r"
  else if (n <? 32) || (127 <=? n) then
    String "\"%char (String "x"%char
      (String (hex_digit false (Z.shiftr n 4))
         (String (hex_digit false (Z.land n 15)) EmptyString)))
  else String c EmptyString.

Definition bytes_repr (b : string) : string :=
  let q := repr_quote b in
  String "b"%char (String q (Str.flat_map (repr_byte q) b +:+ String q EmptyString)).

(** [str(v)], the conversion done by the [%s] directive. *)
Definition str (v : pystr) : string :=
  match v with
  | Text s => s
  | Bytes b => bytes_repr b
  end.

(** [v.rstrip()] *)
Definition rstrip (v : pystr) : pystr :=
  match v with
  | Text s => Text (Str.rstrip Str.is_whitespace s)
  | Bytes b => Bytes (Str.rstrip Str.is_whitespace b)
  end.

End Codec.

(** ** base64 *)
Module base64.

Definition alphabet : string :=
  "ABCDEFGHIJKLMNOPQRSTUVWXYZabcdefghijklmnopqrstuvwxyz0123456789+/".

(** The character of a six-bit group. *)
Definition digit (n : Z) : ascii :=
  match String.get (Z.to_nat (Z.land n 63)) alphabet with
  | Some c => c
  | None => "="%char
  end.

Definition pad : ascii := "="%char.

(** The standard encoding of a byte sequence (RFC 4648, section 4):
    three bytes give four digits, a last group of one or two bytes is
    padded with [=]. *)
Fixpoint encode (b : string) : string :=
  match b with
  | EmptyString => EmptyString
  | String x EmptyString =>
      let n := Z.shiftl (Str.code x) 16 in
      String (digit (Z.shiftr n 18)) (String (digit (Z.shiftr n 12))
        (String pad (String pad EmptyString)))
  | String x (String y EmptyString) =>
      let n := Z.lor (Z.shiftl (Str.code x) 16) (Z.shiftl (Str.code y) 8) in
      String (digit (Z.shiftr n 18)) (String (digit (Z.shiftr n 12))
        (String (digit (Z.shiftr n 6)) (String pad EmptyString)))
  | String x (String y (String z r)) =>
      let n := Z.lor (Z.lor (Z.shiftl (Str.code x) 16) (Z.shiftl (Str.code y) 8))
                     (Str.code z) in
      String (digit (Z.shiftr n 18)) (String (digit (Z.shiftr n 12))
        (String (digit (Z.shiftr n 6)) (String (digit n) (encode r))))
  end.

(** [base64.b64encode(b)]: a [str] under Python 2, [bytes] under
    Python 3. *)
Definition b64encode (py : interpreter) (b : string) : pystr :=
  match py with
  | Python2 => Text (encode b)
  | Python3 => Bytes (encode b)
  end.

(** Characters that [rstrip()] keeps and that [repr] of a bytes object
    shows as they are, between single quotes. *)
Definition plain (c : ascii) : bool :=
  negb (Str.is_whitespace c)
  && negb (Ascii.eqb "'" c)
  && String.eqb (Codec.repr_byte "'" c) (String c EmptyString).

End base64.

(** ** Decoded JSON values, exceptions and results *)

(** What [json.loads] returns.  A number with a fraction or an exponent
    is a float, kept as its lexeme; an object keeps its members in
    source order. *)
#[warnings="-register-all"] Inductive json :=
| JNull
| JBool (b : bool)
| JInt (n : Z)
| JFloat (lexeme : string)
| JStr (s : string)
| JArr (items : list json)
| JObj (members : list (string * json)).

(** A subscript: a string key or an integer position. *)
Inductive index :=
| IStr (s : string)
| IInt (i : Z).

(** [class HelpSpotError(Exception)] (api.py, lines 75-92): [__init__]
    stores its two arguments in the instance variables [err_mesg] and
    [err_id].  ([__str__], which joins the two for display, is not
    modelled.) *)
Module HelpSpotError.
Record instance := __init__ { err_mesg : json; err_id : json }.
End HelpSpotError.

(** Exceptions that the modelled code can raise. *)
Inductive exn :=
| HelpSpotError (e : HelpSpotError.instance)
| IndexError
| KeyError (key : index)
| AttributeError
| TypeError
| ValueError
| UnicodeDecodeError
| HTTPError (code : Z)
| URLError.

(** The outcome of running a piece of code: a value or an exception. *)
Inductive result (A : Type) :=
| Return (a : A)
| Raise (e : exn).
Arguments Return {A} a.
Arguments Raise {A} e.

Definition bind {A B} (r : result A) (k : A -> result B) : result B :=
  match r with
  | Return a => k a
  | Raise e => Raise e
  end.

Notation "x <- r ;; k" := (bind r (fun x => k))
  (at level 100, r at next level, right associativity).

(** [try: body  except IndexError: handler] *)
Definition except_IndexError {A} (body handler : result A) : result A :=
  match body with
  | Raise IndexError => handler
  | r => r
  end.

(** ** The json library *)
Module Json.

Definition dquote : ascii := "034"%char.

Definition is_ws (c : ascii) : bool :=
  match c with
  | " " | "009" | "010" | "013" => true
  | _ => false
  end%char.

Fixpoint skip_ws (s : string) : string :=
  match s with
  | String c r => if is_ws c then skip_ws r else s
  | EmptyString => s
  end.

Fixpoint span (p : ascii -> bool) (s : string) : string * string :=
  match s with
  | String c r =>
      if p c then let '(a, b) := span p r in (String c a, b) else (EmptyString, s)
  | EmptyString => (EmptyString, EmptyString)
  end.

Fixpoint decimal (acc : Z) (ds : string) : Z :=
  match ds with
  | String c r => decimal (10 * acc + (Str.code c - 48)) r
  | EmptyString => acc
  end.

(** A number: an optional minus sign, then 0 or a digit string without
    leading 0, then an optional fraction (a dot and digits) and an
    optional exponent (e or E, an optional sign, digits); an int when
    it has neither fraction nor exponent. *)
Definition scan_number (s : string) : option (json * string) :=
  let '(neg, s1) :=
    match s with String "-"%char r => (true, r) | _ => (false, s) end in
  let '(ip, s2) :=
    match s1 with
    | String "0"%char r => ("0", r)
    | _ => span Str.is_digit s1
    end in
  if Str.is_empty ip then None else
  let '(frac, s3) :=
    match s2 with
    | String "."%char r =>
        let '(fd, r') := span Str.is_digit r in
        if Str.is_empty fd then (EmptyString, s2) else (String "."%char fd, r')
    | _ => (EmptyString, s2)
    end in
  let '(ex, s4) :=
    match s3 with
    | String c r =>
        if Ascii.eqb c "e" || Ascii.eqb c "E" then
          let '(sg, r1) :=
            match r with
            | String "+"%char r' => ("+", r')
            | String "-"%char r' => ("-", r')
            | _ => (EmptyString, r)
            end in
          let '(ed, r2) := span Str.is_digit r1 in
          if Str.is_empty ed then (EmptyString, s3) else (String c (sg +:+ ed), r2)
        else (EmptyString, s3)
    | EmptyString => (EmptyString, s3)
    end in
  if Str.is_empty frac && Str.is_empty ex
  then Some (JInt (if neg then - decimal 0 ip else decimal 0 ip), s4)
  else Some (JFloat ((if neg then "-" else EmptyString) +:+ ip +:+ frac +:+ ex), s4).

Definition simple_escape (c : ascii) : option ascii :=
  match c with
  | "034" => Some "034" | "\" => Some "\" | "/" => Some "/"
  | "b" => Some "008" | "f" => Some "012" | "n" => Some "010"
  | "r" => Some "013" | "t" => Some "009"
  | _ => None
  end%char.

Definition hex_value (c : ascii) : option Z :=
  let n := Str.code c in
  if Str.is_digit c then Some (n - 48)
  else if (97 <=? n) && (n <=? 102) then Some (n - 87)
  else if (65 <=? n) && (n <=? 70) then Some (n - 55)
  else None.

Definition hex4 (a b c d : ascii) : option Z :=
  match hex_value a, hex_value b, hex_value c, hex_value d with
  | Some w, Some x, Some y, Some z => Some (((w * 16 + x) * 16 + y) * 16 + z)
  | _, _, _, _ => None
  end.

Definition cons_to (c : ascii) (r : option (string * string)) :=
  match r with
  | Some (x, rest) => Some (String c x, rest)
  | None => None
  end.

(** The characters of a string literal, from just after its opening
    quote; the second component is the text after the closing quote.
    An escape [\uXXXX] above [\u00ff] has no character in the model
    and is refused. *)
Fixpoint scan_string (s : string) : option (string * string) :=
  match s with
  | EmptyString => None
  | String c r =>
      if Ascii.eqb c dquote then Some (EmptyString, r)
      else if Ascii.eqb c "\" then
        match r with
        | String e r' =>
            match simple_escape e with
            | Some x => cons_to x (scan_string r')
            | None =>
                if Ascii.eqb e "u" then
                  match r' with
                  | String h1 (String h2 (String h3 (String h4 r''))) =>
                      match hex4 h1 h2 h3 h4 with
                      | Some n =>
                          if n <? 256 then cons_to (Str.chr n) (scan_string r'')
                          else None
                      | None => None
                      end
                  | _ => None
                  end
                else None
            end
        | EmptyString => None
        end
      else if Str.code c <? 32 then None
      else cons_to c (scan_string r)
  end.

Definition keyword (k : string) (v : json) (s : string) : option (json * string) :=
  if String.prefix k s
  then Some (v, String.substring (String.length k) (String.length s - String.length k) s)
  else None.

(** One value at the head of [s]; [fuel] bounds the nesting depth and
    the number of items of a container. *)
Fixpoint scan_once (fuel : nat) (s : string) : option (json * string) :=
  match fuel with
  | O => None
  | S n =>
      let members :=
        fix members (k : nat) (s : string) (acc : list (string * json)) {struct k} :=
          match k, s with
          | S k', String q r =>
              if Ascii.eqb q dquote then
                match scan_string r with
                | Some (key, r1) =>
                    match skip_ws r1 with
                    | String ":"%char r2 =>
                        match scan_once n (skip_ws r2) with
                        | Some (v, r3) =>
                            match skip_ws r3 with
                            | String "}"%char r4 => Some (JObj (rev ((key, v) :: acc)), r4)
                            | String ","%char r4 => members k' (skip_ws r4) ((key, v) :: acc)
                            | _ => None
                            end
                        | None => None
                        end
                    | _ => None
                    end
                | None => None
                end
              else None
          | _, _ => None
          end in
      let elements :=
        fix elements (k : nat) (s : string) (acc : list json) {struct k} :=
          match k with
          | S k' =>
              match scan_once n s with
              | Some (v, r1) =>
                  match skip_ws r1 with
                  | String "]"%char r2 => Some (JArr (rev (v :: acc)), r2)
                  | String ","%char r2 => elements k' (skip_ws r2) (v :: acc)
                  | _ => None
                  end
              | None => None
              end
          | O => None
          end in
      match s with
      | EmptyString => None
      | String c r =>
          if Ascii.eqb c dquote then
            match scan_string r with
            | Some (x, r') => Some (JStr x, r')
            | None => None
            end
          else if Ascii.eqb c "{" then
            match skip_ws r with
            | String "}"%char r' => Some (JObj [], r')
            | r0 => members n r0 []
            end
          else if Ascii.eqb c "[" then
            match skip_ws r with
            | String "]"%char r' => Some (JArr [], r')
            | r0 => elements n r0 []
            end
          else
            match keyword "null" JNull s, keyword "true" (JBool true) s,
                  keyword "false" (JBool false) s with
            | Some v, _, _ | None, Some v, _ | None, None, Some v => Some v
            | None, None, None =>
                match scan_number s with
                | Some v => Some v
                | None =>
                    match keyword "NaN" (JFloat "NaN") s,
                          keyword "Infinity" (JFloat "Infinity") s with
                    | Some v, _ | None, Some v => Some v
                    | None, None => keyword "-Infinity" (JFloat "-Infinity") s
                    end
                end
            end
      end
  end.

(** [json.loads(s)]: one value, surrounded by optional white space;
    anything else is a [ValueError]. *)
Definition loads (s : string) : result json :=
  match scan_once (S (String.length s)) (skip_ws s) with
  | Some (v, r) =>
      match skip_ws r with
      | EmptyString => Return v
      | _ => Raise ValueError
      end
  | None => Raise ValueError
  end.

(** Lookup in a decoded object: of two members with the same name the
    later one is kept. *)
Fixpoint dict_get (k : string) (members : list (string * json)) : option json :=
  match members with
  | [] => None
  | (k', v) :: r =>
      match dict_get k r with
      | Some w => Some w
      | None => if String.eqb k k' then Some v else None
      end
  end.

(** [seq[i]] on a sequence of length [len]: the position, or nothing
    when [i] is out of range (negative positions count from the end). *)
Definition position (len : nat) (i : Z) : option nat :=
  if (0 <=? i) && (i <? Z.of_nat len) then Some (Z.to_nat i)
  else if (- Z.of_nat len <=? i) && (i <? 0) then Some (Z.to_nat (Z.of_nat len + i))
  else None.

(** [v[k]] *)
Definition getitem (v : json) (k : index) : result json :=
  match v, k with
  | JObj members, IStr s =>
      match dict_get s members with
      | Some w => Return w
      | None => Raise (KeyError k)
      end
  | JObj _, IInt _ => Raise (KeyError k)
  | JArr items, IInt i =>
      match position (length items) i with
      | Some p =>
          match nth_error items p with
          | Some w => Return w
          | None => Raise IndexError
          end
      | None => Raise IndexError
      end
  | JStr s, IInt i =>
      match position (String.length s) i with
      | Some p =>
          match String.get p s with
          | Some c => Return (JStr (String c EmptyString))
          | None => Raise IndexError
          end
      | None => Raise IndexError
      end
  | _, _ => Raise TypeError
  end.

(** Writes a JSON text with ['] in place of the double quote. *)
Definition text (s : string) : string := Str.replace "'"%char dquote s.

End Json.

(** ** urllib: quoting, requests and the opener *)

(** A keyword argument value: a string or an integer. *)
Inductive scalar :=
| SStr (s : string)
| SInt (n : Z).

Module urllib.

(** [str(v)] *)
Definition str (v : scalar) : string :=
  match v with
  | SStr s => s
  | SInt n => NilZero.string_of_int (Z.to_int n)
  end.

(** The characters [quote] never escapes: letters, digits and [_.-],
    and under Python 3 also [~]. *)
Definition always_safe (py : interpreter) (c : ascii) : bool :=
  Str.is_alnum c || Str.contains c "_.-"
  || match py with Python2 => false | Python3 => Ascii.eqb c "~" end.

Definition quote_byte (py : interpreter) (safe : string) (c : ascii) : string :=
  if always_safe py c || Str.contains c safe then String c EmptyString
  else String "%"%char
         (String (Codec.hex_digit true (Z.shiftr (Str.code c) 4))
            (String (Codec.hex_digit true (Z.land (Str.code c) 15)) EmptyString)).

(** [quote(s, safe)]: byte by byte, on the string itself under Python 2
    and on its UTF-8 encoding under Python 3. *)
Definition quote (py : interpreter) (s safe : string) : string :=
  Str.flat_map (quote_byte py safe)
    match py with Python2 => s | Python3 => Codec.utf8 s end.

Definition quote_plus (py : interpreter) (s : string) : string :=
  if Str.contains " "%char s
  then Str.replace " "%char "+"%char (quote py s " ")
  else quote py s EmptyString.

Definition pair (py : interpreter) (kv : string * scalar) : string :=
  quote_plus py kv.1 +:+ "=" +:+ quote_plus py (str kv.2).

(** [urlencode(query)] on the items of a dict, in iteration order. *)
Definition urlencode (py : interpreter) (query : list (string * scalar)) : string :=
  Str.join "&" (pair py <$> query).

(** [Request(url)]: the URL given to the constructor and the header
    dict; [add_header] stores the value under the capitalized key. *)
Record Request := { full_url : string; headers : gmap string string }.

Definition Request_ (url : string) : Request :=
  {| full_url := url; headers := ∅ |}.

Definition add_header (key val : string) (req : Request) : Request :=
  {| full_url := full_url req; headers := <[Str.capitalize key := val]> (headers req) |}.

(** What comes back from the server for one request. *)
Inductive reply :=
| Response (status : Z) (body : string)
| NoResponse.

End urllib.

(** ** [class HelpSpotHandler(HTTPHandler)] (api.py, lines 95-109) *)
Module HelpSpotHandler.

(** [http_error_400(self, req, fp, code, msg, hdrs)]; [body] is what
    [fp.read()] gives.  The method has no [return]: a normal end would
    give [None]. *)
Definition http_error_400 (body : string) : result unit :=
  errs <- Json.loads body ;;
  p <- except_IndexError
         (e <- Json.getitem errs (IStr "error") ;;
          details <- Json.getitem e (IInt 0) ;;
          err_mesg <- Json.getitem details (IStr "description") ;;
          err_id <- Json.getitem details (IStr "id") ;;
          Return (err_mesg, err_id))
         (Return (JStr "Unknown HelpSpot API error", JInt 0)) ;;
  Raise (HelpSpotError (HelpSpotError.__init__ p.1 p.2)).

End HelpSpotHandler.

(** The opener that [HelpSpot.__init__] installs, in a world [W] whose
    server is [exchange]: a 2xx response gives its body, status 400 goes
    to [http_error_400] and, if that returned, to the default handler
    like every other status.  Under Python 3 the opener refuses a [str]
    message body before anything is sent. *)
Section Opener.
Context {W : Type}.
Variable exchange : urllib.Request -> option string -> W -> urllib.reply * W.

Definition urlopen (py : interpreter) (req : urllib.Request)
    (data : option string) (w : W) : result string * W :=
  match py, data with
  | Python3, Some _ => (Raise TypeError, w)
  | _, _ =>
      match exchange req data w with
      | (urllib.Response status body, w') =>
          if (200 <=? status) && (status <? 300) then (Return body, w')
          else if status =? 400 then
            (_ <- HelpSpotHandler.http_error_400 body ;; Raise (HTTPError status), w')
          else (Raise (HTTPError status), w')
      | (urllib.NoResponse, w') => (Raise URLError, w')
      end
  end.
End Opener.

(** ** [class HelpSpotAPI(object)] (api.py, lines 112-166) *)
Module HelpSpotAPI.

Record instance := {
  method : string;
  user : string;
  password : string;
  authz : pystr;
  uri : string;
  action : string
}.

(** [s.encode('utf-8')].  Under Python 2 [s] is a byte string, which is
    first decoded as ASCII: a byte above 127 raises. *)
Definition encode_utf8 (py : interpreter) (s : string) : result string :=
  match py with
  | Python2 => if Str.forallb Codec.is_ascii s then Return s else Raise UnicodeDecodeError
  | Python3 => Return (Codec.utf8 s)
  end.

(** [__init__(self, method, user, password, uri)] (lines 118-131) *)
Definition __init__ (py : interpreter) (method user password uri : string)
  : result instance :=
  let self_method := Str.replace "_"%char "."%char method in
  let self_user := user in
  let self_password := password in
  let s := self_user +:+ ":" +:+ self_password in
  b <- encode_utf8 py s ;;
  let self_authz := Codec.rstrip (base64.b64encode py b) in
  let self_uri := Str.rstrip (Ascii.eqb "/"%char) uri +:+ "/api/index.php?method=" in
  let self_action := if str_in self_method _POST_METHODS then "POST" else "GET" in
  Return {| method := self_method; user := self_user; password := self_password;
            authz := self_authz; uri := self_uri; action := self_action |}.

(** The first part of [__call__] (lines 137-156): the request object
    and the message body that are handed to [urlopen]. *)
Definition request (py : interpreter) (self : instance) (kwargs : list (string * scalar))
  : urllib.Request * option string :=
  let uri0 := uri self +:+ method self in
  let params := urllib.urlencode py kwargs in
  let '(uri1, message_body) :=
    if String.eqb "GET" (action self) then
      (if Str.is_empty params then uri0 else uri0 +:+ "&" +:+ params, None)
    else (uri0, Some params) in
  let uri2 := uri1 +:+ "&output=json" in
  let req := urllib.Request_ uri2 in
  let req :=
    if Str.startswith (method self) "private."
    then urllib.add_header "Authorization" ("Basic " +:+ Codec.str (authz self)) req
    else req in
  (req, message_body).

Section Call.
Context {W : Type}.
Variable exchange : urllib.Request -> option string -> W -> urllib.reply * W.

(** [__call__(self, **kwargs)] (lines 133-166): the result, the object
    after the call and the world after the call. *)
Definition __call__ (py : interpreter) (self : instance)
    (kwargs : list (string * scalar)) (w : W) : result json * instance * W :=
  let '(req, message_body) := request py self kwargs in
  let '(r, w') := urlopen exchange py req message_body w in
  (body <- r ;; Json.loads body, self, w').

(** Successive calls on one invoker; the objects after each call, in
    order. *)
Fixpoint calls (py : interpreter) (self : instance)
    (ks : list (list (string * scalar))) (w : W) : list instance * W :=
  match ks with
  | [] => ([], w)
  | kwargs :: ks' =>
      let '(_, self', w') := __call__ py self kwargs w in
      let '(l, w'') := calls py self' ks' w' in
      (self' :: l, w'')
  end.
End Call.

End HelpSpotAPI.

(** ** [class HelpSpot(object)] (api.py, lines 169-189) *)
Module HelpSpot.

(** The instance variables set by [__init__] (lines 175-177). *)
Record instance := __init__ { uri : string; user : string; password : string }.

Definition __dict__ (self : instance) : gmap string string :=
  {[ "uri" := uri self; "user" := user self; "password" := password self ]}.

(** [__getattr__(self, key)] (lines 185-189): [object] has no
    [__getattr__], so the [try] always ends in the
    [except AttributeError] clause. *)
Definition object___getattr__ {A} : result A := Raise AttributeError.

Definition __getattr__ (py : interpreter) (self : instance) (key : string)
  : result HelpSpotAPI.instance :=
  match object___getattr__ with
  | Raise AttributeError =>
      HelpSpotAPI.__init__ py key (user self) (password self) (uri self)
  | r => r
  end.

(** What an attribute access [self.key] evaluates to. *)
Inductive attribute (C : Type) :=
| InstanceVariable (v : string)
| ClassAttribute (c : C)
| Invoker (api : HelpSpotAPI.instance).
Arguments InstanceVariable {C} v.
Arguments ClassAttribute {C} c.
Arguments Invoker {C} api.

Section Lookup.
(** The attributes that class [HelpSpot] and its base [object]
    provide: the data descriptors, which come before the instance
    dictionary, and the others, which come after it. *)
Context {C : Type}.
Variable class_data : string -> option C.
Variable class_other : string -> option C.

(** [self.key]: the normal lookup and, when it fails, [__getattr__]. *)
Definition getattr (py : interpreter) (self : instance) (key : string)
  : result (attribute C) :=
  match class_data key with
  | Some c => Return (ClassAttribute c)
  | None =>
      match __dict__ self !! key with
      | Some v => Return (InstanceVariable v)
      | None =>
          match class_other key with
          | Some c => Return (ClassAttribute c)
          | None => api <- __getattr__ py self key ;; Return (Invoker api)
          end
      end
  end.
End Lookup.

End HelpSpot.

(** [s.count(c)]: how many times the character [c] occurs in [s]. *)
Fixpoint occurrences (c : ascii) (s : string) : nat :=
  match s with
  | EmptyString => O
  | String d r => (if Ascii.eqb c d then 1 else 0) + occurrences c r
  end.

(** The characters other than the two separators of a query string. *)
Definition not_separator (c : ascii) : bool :=
  negb (Ascii.eqb "&" c) && negb (Ascii.eqb "=" c).

(** ** A method call on the client: [hs.key(a=x, ...)] *)

(** The expression evaluates the attribute and calls what it finds: an
    invoker is called as [__call__] does, an instance variable is a
    string, which is not callable, and what the class provides is
    called as the class says ([class_call]). *)
Section MethodCall.
Context {W C : Type}.
Variable exchange : urllib.Request -> option string -> W -> urllib.reply * W.
Variable class_data : string -> option C.
Variable class_other : string -> option C.
Variable class_call : C -> list (string * scalar) -> W -> result json * W.

Definition method_call (py : interpreter) (hs : HelpSpot.instance) (key : string)
    (kwargs : list (string * scalar)) (w : W) : result json * W :=
  match HelpSpot.getattr class_data class_other py hs key with
  | Raise e => (Raise e, w)
  | Return (HelpSpot.InstanceVariable _) => (Raise TypeError, w)
  | Return (HelpSpot.ClassAttribute c) => class_call c kwargs w
  | Return (HelpSpot.Invoker api) =>
      let r := HelpSpotAPI.__call__ exchange py api kwargs w in (r.1.1, r.2)
  end.

(** ** [main()] (api.py, lines 192-202) *)

(** [sys.argv[i]] *)
Definition argv_at (argv : list string) (i : nat) : result string :=
  match nth_error argv i with
  | Some a => Return a
  | None => Raise IndexError
  end.

(** How [main] ends: normally, with an exception of the calls, or with
    the failure of its [assert]. *)
Inductive main_end :=
| Finished
| Uncaught (e : exn)
| AssertionFailed.

(** [ver1 == ver2] on decoded values is a parameter. *)
Variable py_eq : json -> json -> bool.

(** [main()] on the command line [argv]: how it ends, what it printed
    (the label and the value of each [print]) and the world after it. *)
Definition main (py : interpreter) (argv : list string) (w : W)
  : main_end * list (string * json) * W :=
  match (user <- argv_at argv 1 ;;
         password <- argv_at argv 2 ;;
         uri <- argv_at argv 3 ;;
         Return (HelpSpot.__init__ uri user password)) with
  | Raise e => (Uncaught e, [], w)
  | Return hs =>
      match method_call py hs "version" [] w with
      | (Raise e, w1) => (Uncaught e, [], w1)
      | (Return ver1, w1) =>
          let out1 := [("version returned", ver1)] in
          match method_call py hs "private_version" [] w1 with
          | (Raise e, w2) => (Uncaught e, out1, w2)
          | (Return ver2, w2) =>
              let out2 := out1 ++ [("private.version returned", ver2)] in
              if py_eq ver1 ver2 then (Finished, out2, w2)
              else (AssertionFailed, out2, w2)
          end
      end
  end.

End MethodCall.

(** * Properties *)

(** ** The library models on known inputs *)
Example b64_foobar : base64.encode "foobar" = "Zm9vYmFy".
Proof. reflexivity. Qed.
Example b64_fooba : base64.encode "fooba" = "Zm9vYmE=".
Proof. reflexivity. Qed.
Example b64_foob : base64.encode "foob" = "Zm9vYg==".
Proof. reflexivity. Qed.
Example b64_userpass : base64.encode "user:pass" = "dXNlcjpwYXNz".
Proof. reflexivity. Qed.
Example repr_token : Codec.bytes_repr "dXNlcjpwYXNz" = "b'dXNlcjpwYXNz'".
Proof. reflexivity. Qed.
Example repr_escapes :
  Codec.bytes_repr (String "'"%char (String "010"%char (String "255"%char "\")))
  = String "b"%char (String "034"%char ("'\n\xff\\" +:+ String "034"%char EmptyString)).
Proof. reflexivity. Qed.
Example text_empty_errors :
  Json.text "{'error': []}"
  = "{" +:+ String Json.dquote "error" +:+ String Json.dquote ": []}".
Proof. reflexivity. Qed.
Example text_bad_token :
  Json.text "{'error':[{'description':'Bad token','id':42}]}"
  = "{" +:+ String Json.dquote "error" +:+ String Json.dquote ":[{"
    +:+ String Json.dquote "description" +:+ String Json.dquote ":"
    +:+ String Json.dquote "Bad token" +:+ String Json.dquote ","
    +:+ String Json.dquote "id" +:+ String Json.dquote ":42}]}".
Proof. reflexivity. Qed.
Example loads_nested :
  Json.loads (Json.text " {'a': [1, -2.5e3, true, null], 'b': {'c': 'x\ny'}} ")
  = Return (JObj [("a", JArr [JInt 1; JFloat "-2.5e3"; JBool true; JNull]);
                  ("b", JObj [("c", JStr (String "x"%char (String "010"%char "y")))])]).
Proof. reflexivity. Qed.
Example loads_empty_containers :
  Json.loads "[[], {}, [ ], 0]" = Return (JArr [JArr []; JObj []; JArr []; JInt 0]).
Proof. reflexivity. Qed.
Example loads_extra_data : Json.loads "01" = Raise ValueError.
Proof. reflexivity. Qed.
Example loads_trailing_comma : Json.loads "[1,]" = Raise ValueError.
Proof. reflexivity. Qed.
Example loads_no_text : Json.loads EmptyString = Raise ValueError.
Proof. reflexivity. Qed.
Example urlencode_py2 :
  urllib.urlencode Python2 [("xRequest", SStr "12345"); ("note", SStr "a b&c~"); ("n", SInt (-7))]
  = "xRequest=12345&note=a+b%26c%7E&n=-7".
Proof. reflexivity. Qed.
Example urlencode_py3 :
  urllib.urlencode Python3 [("note", SStr (String "a"%char (String "233"%char "~")))]
  = "note=a%C3%A9~".
Proof. reflexivity. Qed.
Example urlencode_none : urllib.urlencode Python2 [] = EmptyString.
Proof. reflexivity. Qed.

(** ** Strings *)
Section StringFacts.

Lemma app_cons c s t : String c s +:+ t = String c (s +:+ t).
Proof. reflexivity. Qed.

Lemma app_nil_l s : EmptyString +:+ s = s.
Proof. reflexivity. Qed.

Lemma app_nil_r s : s +:+ EmptyString = s.
Proof. induction s as [|c s IH]; [done|]. by rewrite app_cons, IH. Qed.

Lemma app_assoc s t u : (s +:+ t) +:+ u = s +:+ (t +:+ u).
Proof. induction s as [|c s IH]; [done|]. by rewrite !app_cons, IH. Qed.

Lemma app_nil_inv s t : s +:+ t = EmptyString → s = EmptyString ∧ t = EmptyString.
Proof. destruct s; [done|]. by rewrite app_cons. Qed.

Lemma length_map f s : String.length (Str.map f s) = String.length s.
Proof. induction s as [|c s IH]; simpl; congruence. Qed.

Lemma get_map f s i : String.get i (Str.map f s) = f <$> String.get i s.
Proof.
  revert i. induction s as [|c s IH]; intros [|i]; simpl; auto.
Qed.

Lemma contains_false c s :
  Str.forallb (λ d, negb (Ascii.eqb c d)) s = true → Str.contains c s = false.
Proof.
  induction s as [|d s IH]; [done|]. simpl.
  intros [H1 H2]%andb_prop. rewrite (IH H2).
  by destruct (Ascii.eqb c d).
Qed.

Lemma forallb_impl (p q : ascii → bool) s :
  (∀ c, p c = true → q c = true) → Str.forallb p s = true → Str.forallb q s = true.
Proof.
  intros Hpq. induction s as [|c s IH]; [done|]. simpl.
  intros [H1 H2]%andb_prop. by rewrite (Hpq _ H1), IH.
Qed.

(** [rstrip] removes a suffix made of stripped characters only ... *)
Lemma rstrip_split p s :
  ∃ t, s = Str.rstrip p s +:+ t ∧ Str.forallb p t = true.
Proof.
  induction s as [|c s (t & Hs & Ht)]; [by exists EmptyString|].
  simpl. destruct (Str.rstrip p s) as [|a r] eqn:E.
  - rewrite app_nil_l in Hs. subst t. destruct (p c) eqn:Hc.
    + exists (String c s). simpl. by rewrite Hc, Ht.
    + exists s. by rewrite app_cons, app_nil_l.
  - exists t. rewrite app_cons. by rewrite <- Hs.
Qed.

(** ... and what it leaves does not end with a stripped character. *)
Lemma rstrip_last p s t c :
  Str.rstrip p s = t +:+ String c EmptyString → p c = false.
Proof.
  revert t. induction s as [|d s IH]; intros t; simpl.
  - by intros [_ ?]%eq_sym%app_nil_inv.
  - destruct (Str.rstrip p s) as [|a r] eqn:E.
    + destruct (p d) eqn:Hd.
      * by intros [_ ?]%eq_sym%app_nil_inv.
      * destruct t as [|x t]; rewrite ?app_nil_l, ?app_cons.
        -- by intros [= <-].
        -- intros [= _ H]. by apply eq_sym, app_nil_inv in H as [_ ?].
    + destruct t as [|x t]; rewrite ?app_nil_l, ?app_cons; [done|].
      intros [= _ H]. by apply (IH t).
Qed.

Lemma rstrip_id p s :
  Str.forallb (λ c, negb (p c)) s = true → Str.rstrip p s = s.
Proof.
  induction s as [|c s IH]; [done|]. simpl.
  intros [Hc Hs]%andb_prop. rewrite (IH Hs).
  destruct s; [|done]. by destruct (p c).
Qed.

Lemma startswith_spec s p : Str.startswith s p = true ↔ ∃ r, s = p +:+ r.
Proof.
  unfold Str.startswith. revert s. induction p as [|c p IH]; intros s.
  - split; [by exists s|]. by destruct s.
  - destruct s as [|d s]; simpl.
    + split; [done|]. by intros [r ?].
    + destruct (ascii_dec c d) as [->|Hne].
      * rewrite IH. split; intros [r Hr]; exists r.
        -- by rewrite app_cons, <- Hr.
        -- rewrite app_cons in Hr. by injection Hr.
      * split; [done|]. intros [r Hr]. rewrite app_cons in Hr. congruence.
Qed.

Lemma flat_map_id f s :
  Str.forallb (λ c, String.eqb (f c) (String c EmptyString)) s = true →
  Str.flat_map f s = s.
Proof.
  induction s as [|c s IH]; [done|]. simpl.
  intros [Hc Hs]%andb_prop. apply String.eqb_eq in Hc.
  by rewrite Hc, (IH Hs).
Qed.

(** Every item of a list occurs in its [join]. *)
Lemma join_occurs sep x l :
  x ∈ l → ∃ a b, Str.join sep l = a +:+ x +:+ b.
Proof.
  unfold Str.join. induction l as [|y l IH]; [by intros ?%elem_of_nil|].
  intros [->|Hx]%elem_of_cons.
  - destruct l as [|z l]; simpl.
    + exists EmptyString, EmptyString. by rewrite app_nil_r.
    + by exists EmptyString, (sep +:+ String.concat sep (z :: l)).
  - destruct (IH Hx) as (a & b & Hab).
    destruct l as [|z l]; [by apply elem_of_nil in Hx|].
    exists (y +:+ sep +:+ a), b.
    change (String.concat sep (y :: z :: l))
      with (y +:+ sep +:+ String.concat sep (z :: l)).
    by rewrite Hab, !app_assoc.
Qed.

Lemma join_nonempty sep s l :
  s ≠ EmptyString → Str.join sep (s :: l) ≠ EmptyString.
Proof.
  unfold Str.join. intros Hs. destruct l; simpl; [done|].
  by intros [? _]%app_nil_inv.
Qed.

End StringFacts.


(** ** base64 output *)
Section Base64Facts.

Lemma land63_bound n : 0 ≤ Z.land n 63 < 64.
Proof.
  change 63 with (Z.ones 6). rewrite Z.land_ones by lia.
  apply Z.mod_pos_bound. lia.
Qed.

Lemma digit_plain n : base64.plain (base64.digit n) = true.
Proof.
  unfold base64.digit.
  pose proof (land63_bound n) as Hn.
  assert (Hk : (Z.to_nat (Z.land n 63) < 64)%nat) by lia.
  generalize dependent (Z.to_nat (Z.land n 63)). intros k Hk.
  do 64 (destruct k as [|k]; [reflexivity|]). lia.
Qed.

Lemma forallb_cons p c s : Str.forallb p (String c s) = p c && Str.forallb p s.
Proof. reflexivity. Qed.

Lemma encode_plain b : Str.forallb base64.plain (base64.encode b) = true.
Proof.
  assert (H : ∀ n b, (String.length b ≤ n)%nat →
              Str.forallb base64.plain (base64.encode b) = true).
  { clear b. induction n as [|n IH]; intros b Hb.
    - destruct b; [done | simpl in Hb; lia].
    - destruct b as [|x [|y [|z r]]]; [done|..];
        cbn [base64.encode]; rewrite !forallb_cons, ?digit_plain; try done.
      apply IH. cbn [String.length] in Hb. lia. }
  by apply (H (String.length b)).
Qed.

(** The [rstrip()] applied to the token removes nothing. *)
Lemma rstrip_encode b :
  Str.rstrip Str.is_whitespace (base64.encode b) = base64.encode b.
Proof.
  apply rstrip_id. eapply forallb_impl, encode_plain.
  unfold base64.plain. by intros c [[? _]%andb_prop _]%andb_prop.
Qed.

(** The [repr] of the token is the token between [b'] and [']. *)
Lemma repr_encode b :
  Codec.bytes_repr (base64.encode b) = "b'" +:+ base64.encode b +:+ "'".
Proof.
  unfold Codec.bytes_repr, Codec.repr_quote.
  rewrite contains_false.
  - simpl. rewrite flat_map_id; [done|].
    eapply forallb_impl, encode_plain.
    unfold base64.plain. by intros c [_ ?]%andb_prop.
  - eapply forallb_impl, encode_plain.
    unfold base64.plain. by intros c [[_ ?]%andb_prop _]%andb_prop.
Qed.

End Base64Facts.

(** ** Construction of an invoker *)
Section Construction.

Lemma str_in_spec x l : str_in x l = true ↔ x ∈ l.
Proof.
  unfold str_in. rewrite existsb_exists, list_elem_of_In. split.
  - by intros (y & Hy & ->%String.eqb_eq).
  - intros Hx. exists x. by rewrite String.eqb_refl.
Qed.

(** [__init__] returns as soon as the credentials can be encoded, and
    then all six fields are known. *)
Lemma init_returns py method user password uri b :
  HelpSpotAPI.encode_utf8 py (user +:+ ":" +:+ password) = Return b →
  HelpSpotAPI.__init__ py method user password uri
  = Return {| HelpSpotAPI.method := Str.replace "_" "." method;
              HelpSpotAPI.user := user;
              HelpSpotAPI.password := password;
              HelpSpotAPI.authz := Codec.rstrip (base64.b64encode py b);
              HelpSpotAPI.uri :=
                Str.rstrip (Ascii.eqb "/") uri +:+ "/api/index.php?method=";
              HelpSpotAPI.action :=
                if str_in (Str.replace "_" "." method) _POST_METHODS
                then "POST" else "GET" |}.
Proof. intros Hb. unfold HelpSpotAPI.__init__. by rewrite Hb. Qed.

(** The fields of a constructed invoker. *)
Lemma init_fields py method user password uri self :
  HelpSpotAPI.__init__ py method user password uri = Return self →
  ∃ b, HelpSpotAPI.encode_utf8 py (user +:+ ":" +:+ password) = Return b
    ∧ HelpSpotAPI.method self = Str.replace "_" "." method
    ∧ HelpSpotAPI.user self = user
    ∧ HelpSpotAPI.password self = password
    ∧ HelpSpotAPI.authz self = Codec.rstrip (base64.b64encode py b)
    ∧ HelpSpotAPI.uri self = Str.rstrip (Ascii.eqb "/") uri +:+ "/api/index.php?method="
    ∧ HelpSpotAPI.action self
      = if str_in (HelpSpotAPI.method self) _POST_METHODS then "POST" else "GET".
Proof.
  unfold HelpSpotAPI.__init__.
  destruct (HelpSpotAPI.encode_utf8 _ _) as [b|e]; [|done].
  intros [= <-]. by exists b.
Qed.

(** Under Python 3 every construction succeeds; under Python 2 it does
    when the credentials are ASCII. *)
Lemma encode_utf8_python3 s : HelpSpotAPI.encode_utf8 Python3 s = Return (Codec.utf8 s).
Proof. reflexivity. Qed.

Lemma encode_utf8_python2 s :
  Str.forallb Codec.is_ascii s = true → HelpSpotAPI.encode_utf8 Python2 s = Return s.
Proof. intros H. unfold HelpSpotAPI.encode_utf8. by rewrite H. Qed.

Lemma init_total_python3 method user password uri :
  ∃ self, HelpSpotAPI.__init__ Python3 method user password uri = Return self.
Proof. eexists. apply init_returns, encode_utf8_python3. Qed.

Lemma init_total_python2 method user password uri :
  Str.forallb Codec.is_ascii (user +:+ ":" +:+ password) = true →
  ∃ self, HelpSpotAPI.__init__ Python2 method user password uri = Return self.
Proof. intros H. eexists. by apply init_returns, encode_utf8_python2. Qed.

(** The message body is absent exactly when the action is GET, which is
    how urllib chooses between the GET and the POST verb. *)
Lemma message_body_follows_action py self kwargs :
  (HelpSpotAPI.request py self kwargs).2 = None ↔ HelpSpotAPI.action self = "GET".
Proof.
  unfold HelpSpotAPI.request.
  destruct (String.eqb_spec "GET" (HelpSpotAPI.action self)) as [<-|Hne].
  - by destruct (Str.is_empty _).
  - split; [done | congruence].
Qed.

Lemma utf8_ascii s : Str.forallb Codec.is_ascii s = true → Codec.utf8 s = s.
Proof.
  intros H. apply flat_map_id. revert H. apply forallb_impl.
  intros c Hc. unfold Codec.utf8_char, Codec.is_ascii in *.
  rewrite Hc. apply String.eqb_refl.
Qed.

End Construction.

(** ** The claims *)

(** C8: the translation from the caller-facing method name to the wire
    form is exact and total.  For every method name (and every endpoint)
    the invoker is constructed as soon as the credentials can be encoded,
    and its wire-form name has the length of the caller-facing name, with
    a dot at every position that holds an underscore and the same
    character at every other position; [private_request_update] becomes
    [private.request.update]. *)
Theorem wire_method_translation py method user password uri b :
  HelpSpotAPI.encode_utf8 py (user +:+ ":" +:+ password) = Return b →
  ∃ self,
    HelpSpotAPI.__init__ py method user password uri = Return self
    ∧ String.length (HelpSpotAPI.method self) = String.length method
    ∧ (∀ i, String.get i (HelpSpotAPI.method self)
            = (λ c, if Ascii.eqb c "_" then "."%char else c) <$> String.get i method)
    ∧ (method = "private_request_update" →
       HelpSpotAPI.method self = "private.request.update").
Proof.
  intros Hb. eexists. split; [by apply init_returns|]. cbn [HelpSpotAPI.method].
  unfold Str.replace. split_and!.
  - apply length_map.
  - intros i. apply get_map.
  - by intros ->.
Qed.

Lemma wire_method_translation_witness :
  HelpSpotAPI.encode_utf8 Python2 ("user" +:+ ":" +:+ "pass") = Return "user:pass"
  ∧ ∃ self,
      HelpSpotAPI.__init__ Python2 "private_request_update" "user" "pass"
        "http://helpdesk.example.com/help" = Return self
      ∧ String.length (HelpSpotAPI.method self) = String.length "private_request_update"
      ∧ HelpSpotAPI.method self = "private.request.update".
Proof.
  split; [reflexivity|].
  destruct (wire_method_translation Python2 "private_request_update" "user" "pass"
              "http://helpdesk.example.com/help" "user:pass" eq_refl)
    as (self & Hinit & Hlen & _ & Hexample).
  exists self. split; [exact Hinit|]. split; [exact Hlen|].
  exact (Hexample eq_refl).
Defined.

(** C2: the mapping from method name to HTTP verb is total and static.
    For every method name the constructed invoker has action POST
    exactly when its wire-form name is in [_POST_METHODS] and GET exactly
    when it is not; [request_create] selects POST and [version] selects
    GET. *)
Theorem verb_selection py method user password uri b :
  HelpSpotAPI.encode_utf8 py (user +:+ ":" +:+ password) = Return b →
  ∃ self,
    HelpSpotAPI.__init__ py method user password uri = Return self
    ∧ HelpSpotAPI.method self = Str.replace "_" "." method
    ∧ (HelpSpotAPI.action self = "POST" ↔ HelpSpotAPI.method self ∈ _POST_METHODS)
    ∧ (HelpSpotAPI.action self = "GET" ↔ HelpSpotAPI.method self ∉ _POST_METHODS)
    ∧ (method = "request_create" → HelpSpotAPI.action self = "POST")
    ∧ (method = "version" → HelpSpotAPI.action self = "GET").
Proof.
  intros Hb. eexists. split; [by apply init_returns|].
  cbn [HelpSpotAPI.method HelpSpotAPI.action].
  split; [done|].
  rewrite <- str_in_spec.
  destruct (str_in (Str.replace "_" "." method) _POST_METHODS) eqn:E.
  - split_and!; [done | split; [done | by intros []] | done |].
    intros ->. by vm_compute in E.
  - split_and!; [split; [done | by intros ?] | done | | done].
    intros ->. by vm_compute in E.
Qed.

Lemma verb_selection_witness :
  HelpSpotAPI.encode_utf8 Python3 ("user" +:+ ":" +:+ "pass") = Return "user:pass"
  ∧ ∃ self,
      HelpSpotAPI.__init__ Python3 "request_create" "user" "pass"
        "http://helpdesk.example.com/help" = Return self
      ∧ HelpSpotAPI.method self = "request.create"
      ∧ HelpSpotAPI.action self = "POST".
Proof.
  split; [reflexivity|].
  destruct (verb_selection Python3 "request_create" "user" "pass"
              "http://helpdesk.example.com/help" "user:pass" eq_refl)
    as (self & Hinit & Hmethod & _ & _ & Hpost & _).
  exists self. split; [exact Hinit|]. split; [exact Hmethod|].
  exact (Hpost eq_refl).
Defined.

(** C7: construction strips every trailing slash of the endpoint and
    appends the entry path.  The endpoint splits into a part that does
    not end with a slash and a run of slashes; the invoker keeps the
    first part followed by [/api/index.php?method=], and the URL of every
    call is that, then the wire-form method name, then possibly more, and
    it ends with [&output=json]. *)
Theorem request_url_form py method user password uri kwargs b :
  HelpSpotAPI.encode_utf8 py (user +:+ ":" +:+ password) = Return b →
  ∃ self endpoint slashes rest,
    HelpSpotAPI.__init__ py method user password uri = Return self
    ∧ uri = endpoint +:+ slashes
    ∧ Str.forallb (Ascii.eqb "/") slashes = true
    ∧ (∀ t, endpoint ≠ t +:+ "/")
    ∧ HelpSpotAPI.uri self = endpoint +:+ "/api/index.php?method="
    ∧ HelpSpotAPI.method self = Str.replace "_" "." method
    ∧ urllib.full_url (HelpSpotAPI.request py self kwargs).1
      = endpoint +:+ "/api/index.php?method=" +:+ HelpSpotAPI.method self
          +:+ rest +:+ "&output=json".
Proof.
  intros Hb.
  destruct (rstrip_split (Ascii.eqb "/") uri) as (slashes & Huri & Hsl).
  eexists _, (Str.rstrip (Ascii.eqb "/") uri), slashes,
    (if String.eqb "GET"
          (if str_in (Str.replace "_" "." method) _POST_METHODS then "POST" else "GET")
     then if Str.is_empty (urllib.urlencode py kwargs) then EmptyString
          else "&" +:+ urllib.urlencode py kwargs
     else EmptyString).
  split; [by apply init_returns|].
  split_and!; try done.
  - intros t Ht. by apply rstrip_last in Ht.
  - unfold HelpSpotAPI.request.
    cbn [HelpSpotAPI.uri HelpSpotAPI.method HelpSpotAPI.action HelpSpotAPI.authz].
    destruct (String.eqb "GET" _); [destruct (Str.is_empty _)|];
      destruct (Str.startswith _ _);
      cbn [fst urllib.full_url urllib.add_header urllib.Request_];
      by rewrite ?app_assoc, ?app_nil_l.
Qed.

Lemma request_url_form_witness :
  HelpSpotAPI.encode_utf8 Python2 ("user" +:+ ":" +:+ "pass") = Return "user:pass"
  ∧ ∃ self endpoint slashes rest,
      HelpSpotAPI.__init__ Python2 "private_version" "user" "pass"
        "http://helpdesk.example.com/help//" = Return self
      ∧ "http://helpdesk.example.com/help//" = endpoint +:+ slashes
      ∧ Str.forallb (Ascii.eqb "/") slashes = true
      ∧ (∀ t, endpoint ≠ t +:+ "/")
      ∧ HelpSpotAPI.uri self = endpoint +:+ "/api/index.php?method="
      ∧ HelpSpotAPI.method self = Str.replace "_" "." "private_version"
      ∧ urllib.full_url (HelpSpotAPI.request Python2 self [("xRequest", SStr "12345")]).1
        = endpoint +:+ "/api/index.php?method=" +:+ HelpSpotAPI.method self
            +:+ rest +:+ "&output=json".
Proof.
  split; [reflexivity|].
  apply (request_url_form Python2 "private_version" "user" "pass"
           "http://helpdesk.example.com/help//" [("xRequest", SStr "12345")]
           "user:pass").
  reflexivity.
Defined.

Example request_url_example :
  (λ self, urllib.full_url (HelpSpotAPI.request Python2 self [("xRequest", SStr "12345")]).1)
    <$> match HelpSpotAPI.__init__ Python2 "private_version" "user" "pass"
                "http://helpdesk.example.com/help//" with
        | Return self => Some self
        | Raise _ => None
        end
  = Some "http://helpdesk.example.com/help/api/index.php?method=private.version&xRequest=12345&output=json".
Proof. reflexivity. Qed.

(** ** Placement of the keyword parameters *)
Section Parameters.

Lemma pair_nonempty py kv : urllib.pair py kv ≠ EmptyString.
Proof. unfold urllib.pair. by intros [_ [? _]%app_nil_inv]%app_nil_inv. Qed.

Lemma urlencode_is_empty py kwargs :
  Str.is_empty (urllib.urlencode py kwargs)
  = match kwargs with [] => true | _ => false end.
Proof.
  destruct kwargs as [|kv l]; [done|].
  unfold urllib.urlencode. rewrite fmap_cons.
  pose proof (join_nonempty "&" _ (urllib.pair py <$> l) (pair_nonempty py kv)).
  by destruct (Str.join _ _).
Qed.

(** Every keyword parameter occurs, quoted, in the encoded parameters. *)
Lemma urlencode_occurs py kwargs k v :
  (k, v) ∈ kwargs →
  ∃ a b, urllib.urlencode py kwargs
         = a +:+ (urllib.quote_plus py k +:+ "=" +:+ urllib.quote_plus py (urllib.str v)) +:+ b.
Proof.
  intros Hkv. apply (join_occurs "&" (urllib.pair py (k, v))).
  by apply list_elem_of_fmap_2.
Qed.

End Parameters.

(** C6: where the keyword parameters go.  The action of a constructed
    invoker is GET or POST.  With GET the call has no message body, and
    the query string (what follows [/api/index.php?]) is the method,
    then, if there are parameters, [&] and the URL-encoded parameters,
    then [&output=json]; every parameter occurs in it as
    [quote_plus(key)=quote_plus(str(value))].  With POST the message body
    is the URL-encoded parameters, in which every parameter occurs in
    that form, and the query string is exactly the method followed by
    [&output=json]. *)
Theorem parameter_placement py method user password uri kwargs self :
  HelpSpotAPI.__init__ py method user password uri = Return self →
  ∃ endpoint,
    HelpSpotAPI.uri self = endpoint +:+ "/api/index.php?" +:+ "method="
    ∧ (HelpSpotAPI.action self = "GET" ∨ HelpSpotAPI.action self = "POST")
    ∧ (HelpSpotAPI.action self = "GET" →
       (HelpSpotAPI.request py self kwargs).2 = None
       ∧ ∃ query,
           urllib.full_url (HelpSpotAPI.request py self kwargs).1
           = endpoint +:+ "/api/index.php?" +:+ query
           ∧ query = "method=" +:+ HelpSpotAPI.method self
                     +:+ match kwargs with
                         | [] => EmptyString
                         | _ => "&" +:+ urllib.urlencode py kwargs
                         end
                     +:+ "&output=json"
           ∧ ∀ k v, (k, v) ∈ kwargs →
               ∃ a b, query = a +:+ (urllib.quote_plus py k +:+ "="
                                      +:+ urllib.quote_plus py (urllib.str v)) +:+ b)
    ∧ (HelpSpotAPI.action self = "POST" →
       urllib.full_url (HelpSpotAPI.request py self kwargs).1
       = endpoint +:+ "/api/index.php?" +:+ "method=" +:+ HelpSpotAPI.method self
           +:+ "&output=json"
       ∧ (HelpSpotAPI.request py self kwargs).2 = Some (urllib.urlencode py kwargs)
       ∧ ∀ k v, (k, v) ∈ kwargs →
           ∃ a b, urllib.urlencode py kwargs
                  = a +:+ (urllib.quote_plus py k +:+ "="
                           +:+ urllib.quote_plus py (urllib.str v)) +:+ b).
Proof.
  intros (b & _ & _ & _ & _ & _ & Huri & Haction)%init_fields.
  exists (Str.rstrip (Ascii.eqb "/") uri).
  unfold HelpSpotAPI.request. rewrite Huri, Haction, urlencode_is_empty.
  set (m := HelpSpotAPI.method self).
  set (e := Str.rstrip (Ascii.eqb "/") uri).
  split; [done|].
  destruct (str_in m _POST_METHODS).
  - split; [by right|]. split; [done|]. intros _.
    change (String.eqb "GET" "POST") with false. cbv iota.
    split_and!.
    + destruct (Str.startswith m _);
        cbn [fst urllib.full_url urllib.add_header urllib.Request_];
        by rewrite ?app_assoc.
    + by destruct (Str.startswith m _).
    + apply urlencode_occurs.
  - split; [by left|]. split; [|done]. intros _.
    change (String.eqb "GET" "GET") with true. cbv iota.
    split; [by destruct kwargs, (Str.startswith m _)|].
    eexists. split_and!; [|reflexivity|].
    + destruct kwargs, (Str.startswith m _);
        cbn [fst urllib.full_url urllib.add_header urllib.Request_];
        by rewrite ?app_assoc, ?app_nil_l.
    + intros k v Hkv. destruct (urlencode_occurs py _ _ _ Hkv) as (a & c & Hac).
      destruct kwargs as [|kv l]; [by apply elem_of_nil in Hkv|].
      exists ("method=" +:+ m +:+ "&" +:+ a), (c +:+ "&output=json").
      rewrite Hac. by rewrite !app_assoc.
Qed.

Lemma parameter_placement_witness :
  ∃ self,
    HelpSpotAPI.__init__ Python2 "request_update" "user" "pass"
      "http://helpdesk.example.com/help" = Return self
    ∧ HelpSpotAPI.action self = "POST"
    ∧ (HelpSpotAPI.request Python2 self [("xRequest", SStr "12345"); ("tNote", SStr "a b")]).2
      = Some "xRequest=12345&tNote=a+b".
Proof.
  eexists. split; [reflexivity|]. split; [reflexivity|].
  destruct (parameter_placement Python2 "request_update" "user" "pass"
              "http://helpdesk.example.com/help"
              [("xRequest", SStr "12345"); ("tNote", SStr "a b")] _ eq_refl)
    as (endpoint & _ & _ & _ & Hpost).
  destruct (Hpost eq_refl) as (_ & Hbody & _).
  exact Hbody.
Defined.

Example post_request_example :
  (λ self, (urllib.full_url (HelpSpotAPI.request Python2 self [("tNote", SStr "a b")]).1,
            (HelpSpotAPI.request Python2 self [("tNote", SStr "a b")]).2))
    <$> match HelpSpotAPI.__init__ Python2 "request_update" "user" "pass"
                "http://helpdesk.example.com/help" with
        | Return self => Some self
        | Raise _ => None
        end
  = Some ("http://helpdesk.example.com/help/api/index.php?method=request.update&output=json",
          Some "tNote=a+b").
Proof. reflexivity. Qed.

(** ** Calls leave the invoker as it is *)
Section Immutability.
Context {W : Type}.
Variable exchange : urllib.Request → option string → W → urllib.reply * W.

Lemma call_keeps_self py self kwargs (w : W) :
  (HelpSpotAPI.__call__ exchange py self kwargs w).1.2 = self.
Proof.
  unfold HelpSpotAPI.__call__.
  destruct (HelpSpotAPI.request py self kwargs) as [req message_body].
  by destruct (urlopen exchange py req message_body w).
Qed.

Lemma calls_cons py self kwargs ks (w : W) :
  HelpSpotAPI.calls exchange py self (kwargs :: ks) w
  = let r := HelpSpotAPI.__call__ exchange py self kwargs w in
    let rs := HelpSpotAPI.calls exchange py r.1.2 ks r.2 in
    (r.1.2 :: rs.1, rs.2).
Proof.
  cbn [HelpSpotAPI.calls].
  destruct (HelpSpotAPI.__call__ exchange py self kwargs w) as [[r self'] w'].
  cbn [fst snd]. by destruct (HelpSpotAPI.calls exchange py self' ks w').
Qed.

End Immutability.

(** C9: invokers are immutable after construction.  For every server,
    every invoker and every sequence of calls with any keyword
    parameters, the invoker after each call is the invoker before it, so
    its method, user, password, authorization token, URI and action are
    unchanged. *)
Theorem invoker_immutable {W : Type}
    (exchange : urllib.Request → option string → W → urllib.reply * W)
    py self ks (w : W) :
  length (HelpSpotAPI.calls exchange py self ks w).1 = length ks
  ∧ Forall (λ self',
      self' = self
      ∧ HelpSpotAPI.method self' = HelpSpotAPI.method self
      ∧ HelpSpotAPI.user self' = HelpSpotAPI.user self
      ∧ HelpSpotAPI.password self' = HelpSpotAPI.password self
      ∧ HelpSpotAPI.authz self' = HelpSpotAPI.authz self
      ∧ HelpSpotAPI.uri self' = HelpSpotAPI.uri self
      ∧ HelpSpotAPI.action self' = HelpSpotAPI.action self)
      (HelpSpotAPI.calls exchange py self ks w).1.
Proof.
  revert w. induction ks as [|kwargs ks IH]; intros w.
  - split; [done | constructor].
  - rewrite calls_cons. cbn [fst snd length]. rewrite call_keeps_self.
    destruct (IH (HelpSpotAPI.__call__ exchange py self kwargs w).2) as [Hlen Hall].
    split; [by rewrite Hlen|]. by constructor.
Qed.

(** C10: not every attribute access on the client gives an invoker.
    A name of one of the three instance variables gives the value bound
    at construction (no data descriptor of the class having that name);
    the access gives an invoker exactly when the name is none of the
    three, the class provides no attribute of that name, and
    [HelpSpotAPI] constructs the invoker for that name with the client's
    user, password and URI. *)
Theorem client_attribute_access {C : Type} (class_data class_other : string → option C)
    py uri user password key :
  let self := HelpSpot.__init__ uri user password in
  (class_data key = None →
   (key = "uri" → HelpSpot.getattr class_data class_other py self key
                  = Return (HelpSpot.InstanceVariable uri))
   ∧ (key = "user" → HelpSpot.getattr class_data class_other py self key
                     = Return (HelpSpot.InstanceVariable user))
   ∧ (key = "password" → HelpSpot.getattr class_data class_other py self key
                         = Return (HelpSpot.InstanceVariable password)))
  ∧ (∀ api,
       HelpSpot.getattr class_data class_other py self key = Return (HelpSpot.Invoker api)
       ↔ (key ∉ ["uri"; "user"; "password"])
         ∧ class_data key = None
         ∧ class_other key = None
         ∧ HelpSpotAPI.__init__ py key user password uri = Return api).
Proof.
  intros self. unfold HelpSpot.getattr, HelpSpot.__dict__, HelpSpot.__getattr__.
  cbn [HelpSpot.object___getattr__ HelpSpot.uri HelpSpot.user HelpSpot.password self].
  split.
  - intros ->. split_and!; by intros ->.
  - intros api. rewrite !not_elem_of_cons.
    destruct (class_data key) as [c|]; [by split; [|intros (_ & ? & _)]|].
    destruct (decide (key = "uri")) as [->|Huri]; [by split; [|intros ([] & _)]|].
    destruct (decide (key = "user")) as [->|Huser];
      [by split; [|intros ((_ & [] & _) & _)]|].
    destruct (decide (key = "password")) as [->|Hpw];
      [by split; [|intros ((_ & _ & [] & _) & _)]|].
    rewrite !lookup_insert_ne, lookup_singleton_ne by done.
    destruct (class_other key) as [c|]; [by split; [|intros (_ & _ & ? & _)]|].
    destruct (HelpSpotAPI.__init__ py key user password uri) as [a|e]; cbn [bind].
    + split; [|by intros (_ & _ & _ & [= ->])].
      intros [= ->]. split_and!; try done. apply not_elem_of_nil.
    + split; [done | by intros (_ & _ & _ & ?)].
Qed.

Lemma client_attribute_access_witness :
  let class_data (k : string) :=
    if bool_decide (k ∈ ["__class__"; "__dict__"; "__weakref__"]) then Some k else None in
  let class_other (k : string) :=
    if bool_decide (k ∈ ["__init__"; "__getattr__"; "__doc__"; "__module__"])
    then Some k else None in
  let self := HelpSpot.__init__ "http://helpdesk.example.com/help" "you@example.com" "idontknow" in
  class_data "user" = None
  ∧ HelpSpot.getattr class_data class_other Python2 self "user"
    = Return (HelpSpot.InstanceVariable "you@example.com").
Proof.
  intros class_data class_other self. split; [reflexivity|].
  destruct (client_attribute_access class_data class_other Python2
              "http://helpdesk.example.com/help" "you@example.com" "idontknow" "user")
    as [Hstored _].
  destruct (Hstored eq_refl) as (_ & Huser & _).
  exact (Huser eq_refl).
Defined.

(** ** The Authorization header *)
Section Authorization.

(** The only header a call sets is Authorization, and it sets it exactly
    for the methods whose wire-form name starts with [private.]. *)
Lemma authorization_scope py self kwargs :
  urllib.headers (HelpSpotAPI.request py self kwargs).1
  = if Str.startswith (HelpSpotAPI.method self) "private."
    then {[ "Authorization" := "Basic " +:+ Codec.str (HelpSpotAPI.authz self) ]}
    else ∅.
Proof.
  unfold HelpSpotAPI.request.
  destruct (String.eqb "GET" _); [destruct (Str.is_empty _)|];
    by destruct (Str.startswith _ _).
Qed.

Lemma authorization_present py self kwargs :
  is_Some (urllib.headers (HelpSpotAPI.request py self kwargs).1 !! "Authorization")
  ↔ ∃ r, HelpSpotAPI.method self = "private." +:+ r.
Proof.
  rewrite authorization_scope, <- startswith_spec.
  destruct (Str.startswith _ _).
  - by rewrite lookup_singleton_eq.
  - rewrite lookup_empty. split; [by intros [? ?] | done].
Qed.

(** Under Python 2 the value is [Basic ] followed by the base64 encoding
    of [user:password]. *)
Lemma authorization_python2 method user password uri self kwargs :
  HelpSpotAPI.__init__ Python2 method user password uri = Return self →
  urllib.headers (HelpSpotAPI.request Python2 self kwargs).1 !! "Authorization"
  = if Str.startswith (HelpSpotAPI.method self) "private."
    then Some ("Basic " +:+ base64.encode (user +:+ ":" +:+ password))
    else None.
Proof.
  intros (b & Hb & _ & _ & _ & Hauthz & _)%init_fields.
  rewrite authorization_scope, Hauthz.
  destruct (Str.startswith _ _); [|done].
  rewrite lookup_singleton_eq. cbn [base64.b64encode Codec.rstrip Codec.str].
  rewrite rstrip_encode. unfold HelpSpotAPI.encode_utf8 in Hb.
  destruct (Str.forallb _ _); by simplify_eq.
Qed.

(** Under Python 3 the token is a bytes object and [%s] formats its
    [repr]: the value is [Basic b'], the base64 encoding and [']. *)
Lemma authorization_python3 method user password uri self kwargs :
  HelpSpotAPI.__init__ Python3 method user password uri = Return self →
  urllib.headers (HelpSpotAPI.request Python3 self kwargs).1 !! "Authorization"
  = if Str.startswith (HelpSpotAPI.method self) "private."
    then Some ("Basic " +:+ "b'"
               +:+ base64.encode (Codec.utf8 (user +:+ ":" +:+ password)) +:+ "'")
    else None.
Proof.
  intros (b & Hb & _ & _ & _ & Hauthz & _)%init_fields.
  rewrite authorization_scope, Hauthz.
  destruct (Str.startswith _ _); [|done].
  rewrite lookup_singleton_eq. cbn [base64.b64encode Codec.rstrip Codec.str].
  rewrite rstrip_encode, repr_encode. rewrite encode_utf8_python3 in Hb.
  by injection Hb as <-.
Qed.

End Authorization.

(** C1: the Authorization header of a private method.  Under Python 3
    the invoker for [private_version], constructed with user [user] and
    password [pass], sends the header value [Basic b'dXNlcjpwYXNz'],
    whereas the base64 encoding of [user:pass] is [dXNlcjpwYXNz]: the
    value is not [Basic ] followed by the encoding.  (The header is
    present exactly for the [private.] methods, [authorization_present],
    and under Python 2 its value is the expected one,
    [authorization_python2].) *)
Theorem authorization_python3_private_version :
  ∃ self,
    HelpSpotAPI.__init__ Python3 "private_version" "user" "pass"
      "http://helpdesk.example.com/help" = Return self
    ∧ HelpSpotAPI.method self = "private.version"
    ∧ urllib.headers (HelpSpotAPI.request Python3 self []).1 !! "Authorization"
      = Some "Basic b'dXNlcjpwYXNz'"
    ∧ base64.encode (Codec.utf8 ("user" +:+ ":" +:+ "pass")) = "dXNlcjpwYXNz"
    ∧ urllib.headers (HelpSpotAPI.request Python3 self []).1 !! "Authorization"
      ≠ Some ("Basic " +:+ base64.encode (Codec.utf8 ("user" +:+ ":" +:+ "pass"))).
Proof.
  pose (self := {| HelpSpotAPI.method := "private.version";
                   HelpSpotAPI.user := "user";
                   HelpSpotAPI.password := "pass";
                   HelpSpotAPI.authz := Bytes "dXNlcjpwYXNz";
                   HelpSpotAPI.uri :=
                     "http://helpdesk.example.com/help/api/index.php?method=";
                   HelpSpotAPI.action := "GET" |}).
  assert (H : urllib.headers (HelpSpotAPI.request Python3 self []).1 !! "Authorization"
              = Some "Basic b'dXNlcjpwYXNz'").
  { rewrite authorization_scope. apply lookup_singleton_eq. }
  exists self.
  split_and!; [reflexivity | reflexivity | exact H | reflexivity |].
  rewrite H. discriminate.
Qed.

(** ** The error decoder *)
Section Decoder.

(** [http_error_400] never returns normally. *)
Lemma http_error_400_raises body :
  ∃ e, HelpSpotHandler.http_error_400 body = Raise e.
Proof.
  unfold HelpSpotHandler.http_error_400.
  destruct (Json.loads body) as [errs|e]; cbn [bind]; [|by eexists].
  destruct (except_IndexError _ _) as [p|e]; cbn [bind]; by eexists.
Qed.

Lemma loads_exn s e : Json.loads s = Raise e → e = ValueError.
Proof.
  unfold Json.loads.
  destruct (Json.scan_once _ _) as [[v r]|]; [destruct (Json.skip_ws r)|];
    by intros [= <-].
Qed.

Lemma getitem_exn v k e :
  Json.getitem v k = Raise e → e = IndexError ∨ e = TypeError ∨ ∃ k', e = KeyError k'.
Proof.
  unfold Json.getitem. repeat case_match; intros [= <-]; eauto.
Qed.

(** The only exceptions that leave it are [HelpSpotError], and what
    [json.loads] and the subscriptions raise other than [IndexError]. *)
Lemma http_error_400_exceptions body e :
  HelpSpotHandler.http_error_400 body = Raise e →
  (∃ err, e = HelpSpotError err) ∨ e = ValueError ∨ e = TypeError ∨ ∃ k, e = KeyError k.
Proof.
  unfold HelpSpotHandler.http_error_400.
  destruct (Json.loads body) as [errs|e0] eqn:Hl; cbn [bind].
  2: { intros [= ->]. right; left. by apply loads_exn in Hl. }
  destruct (Json.getitem errs _) as [v1|e1] eqn:H1; cbn [bind];
    [destruct (Json.getitem v1 _) as [v2|e2] eqn:H2; cbn [bind];
      [destruct (Json.getitem v2 (IStr "description")) as [v3|e3] eqn:H3; cbn [bind];
        [destruct (Json.getitem v2 (IStr "id")) as [v4|e4] eqn:H4; cbn [bind]|]|]|].
  1: by intros [= <-]; eauto.
  all: match goal with
       | H : Json.getitem _ _ = Raise ?x |- _ =>
           apply getitem_exn in H as [->|[->|[k' ->]]]
       end;
       cbn [except_IndexError bind]; intros [= <-]; eauto 6.
Qed.

(** A 400 response reaches the caller of [urlopen] as whatever
    [http_error_400] raises. *)
Lemma urlopen_400 {W : Type}
    (exchange : urllib.Request → option string → W → urllib.reply * W)
    req (w w' : W) body :
  exchange req None w = (urllib.Response 400 body, w') →
  ∃ e, HelpSpotHandler.http_error_400 body = Raise e
       ∧ ∀ py, urlopen exchange py req None w = (Raise e, w').
Proof.
  intros Hex. destruct (http_error_400_raises body) as [e He].
  exists e. split; [done|]. intros py. unfold urlopen.
  destruct py; rewrite Hex;
    change ((200 <=? 400) && (400 <? 300)) with false;
    change (400 =? 400) with true; cbv iota; by rewrite He.
Qed.

End Decoder.

(** C3: bodies without the expected keys.  For the 400 bodies [{}] (no
    [error] member), [{"error": [{"id": 7}]}] (first element without
    [description]) and [{"error": [{"description": "Bad token"}]}]
    (first element without [id]) the decoder raises [KeyError], not a
    [HelpSpotError] with the generic description; only an empty [error]
    array takes the fallback. *)
Theorem error_decoder_missing_keys :
  HelpSpotHandler.http_error_400 (Json.text "{}") = Raise (KeyError (IStr "error"))
  ∧ HelpSpotHandler.http_error_400 (Json.text "{'error': [{'id': 7}]}")
    = Raise (KeyError (IStr "description"))
  ∧ HelpSpotHandler.http_error_400 (Json.text "{'error': [{'description': 'Bad token'}]}")
    = Raise (KeyError (IStr "id"))
  ∧ Json.loads (Json.text "{}") = Return (JObj [])
  ∧ Json.loads (Json.text "{'error': [{'id': 7}]}")
    = Return (JObj [("error", JArr [JObj [("id", JInt 7)]])]).
Proof. by split_and!. Qed.

(** C4, as the code has it: a 400 response whose body is
    [{"error": []}] raises a [HelpSpotError] whose description is
    ["Unknown HelpSpot API error"] and whose id is 0. *)
Theorem empty_error_array_fallback :
  Json.loads (Json.text "{'error': []}") = Return (JObj [("error", JArr [])])
  ∧ HelpSpotHandler.http_error_400 (Json.text "{'error': []}")
    = Raise (HelpSpotError
               {| HelpSpotError.err_mesg := JStr "Unknown HelpSpot API error";
                  HelpSpotError.err_id := JInt 0 |}).
Proof. by split. Qed.

(** C4, as stated, fails: the description raised for [{"error": []}] is
    not ["Unknown API error"]. *)
Lemma empty_error_array_not_unknown_api_error :
  HelpSpotHandler.http_error_400 (Json.text "{'error': []}")
  ≠ Raise (HelpSpotError
             {| HelpSpotError.err_mesg := JStr "Unknown API error";
                HelpSpotError.err_id := JInt 0 |}).
Proof. discriminate. Qed.

(** C5: a 400 response with body
    [{"error":[{"description":"Bad token","id":42}]}] raises a
    [HelpSpotError] whose [err_mesg] is ["Bad token"] and whose [err_id]
    is 42: the description and the numeric id are two fields of the
    exception. *)
Theorem bad_token_error :
  ∃ err,
    HelpSpotHandler.http_error_400
      (Json.text "{'error':[{'description':'Bad token','id':42}]}")
    = Raise (HelpSpotError err)
    ∧ HelpSpotError.err_mesg err = JStr "Bad token"
    ∧ HelpSpotError.err_id err = JInt 42.
Proof. by eexists. Qed.

(** * Further properties of the code *)

(** ** [HelpSpotHandler.http_error_400] *)

Lemma getitem_first x items : Json.getitem (JArr (x :: items)) (IInt 0) = Return x.
Proof.
  unfold Json.getitem, Json.position.
  replace ((0 <=? 0) && (0 <? Z.of_nat (length (x :: items)))) with true; [done|].
  symmetry. apply andb_true_intro. split; [done|]. apply Z.ltb_lt. simpl. lia.
Qed.

Lemma getitem_member members k v :
  Json.dict_get k members = Some v → Json.getitem (JObj members) (IStr k) = Return v.
Proof. intros H. unfold Json.getitem. by rewrite H. Qed.

Lemma getitem_no_member members k :
  Json.dict_get k members = None →
  Json.getitem (JObj members) (IStr k) = Raise (KeyError (IStr k)).
Proof. intros H. unfold Json.getitem. by rewrite H. Qed.


(** X2: when the body is an object whose [error] member is an empty
    array or an empty string, the handler raises the generic error:
    description [Unknown HelpSpot API error], id 0. *)
Theorem decoder_fallback body members e :
  Json.loads body = Return (JObj members) →
  Json.dict_get "error" members = Some e →
  e = JArr [] ∨ e = JStr EmptyString →
  HelpSpotHandler.http_error_400 body
  = Raise (HelpSpotError
             {| HelpSpotError.err_mesg := JStr "Unknown HelpSpot API error";
                HelpSpotError.err_id := JInt 0 |}).
Proof.
  intros Hl He Hempty. unfold HelpSpotHandler.http_error_400.
  rewrite Hl. cbn [bind Json.getitem]. rewrite He.
  by destruct Hempty as [->| ->].
Qed.

Lemma decoder_fallback_witness :
  Json.loads (Json.text "{'status': 400, 'error': ''}")
  = Return (JObj [("status", JInt 400); ("error", JStr EmptyString)])
  ∧ HelpSpotHandler.http_error_400 (Json.text "{'status': 400, 'error': ''}")
    = Raise (HelpSpotError
               {| HelpSpotError.err_mesg := JStr "Unknown HelpSpot API error";
                  HelpSpotError.err_id := JInt 0 |}).
Proof.
  split; [reflexivity|].
  apply (decoder_fallback _ [("status", JInt 400); ("error", JStr EmptyString)]
           (JStr EmptyString)); [reflexivity | reflexivity | by right].
Defined.

(** X3: when the first element of the [error] array is an object with a
    [description] and an [id], the handler raises a [HelpSpotError] with
    exactly these two values, of whatever JSON type they are; the other
    elements of the array and the other members are ignored. *)
Theorem decoder_first_error body members first others mesg id :
  Json.loads body = Return (JObj members) →
  Json.dict_get "error" members = Some (JArr (JObj first :: others)) →
  Json.dict_get "description" first = Some mesg →
  Json.dict_get "id" first = Some id →
  HelpSpotHandler.http_error_400 body
  = Raise (HelpSpotError {| HelpSpotError.err_mesg := mesg; HelpSpotError.err_id := id |}).
Proof.
  intros Hl He Hm Hi. unfold HelpSpotHandler.http_error_400.
  rewrite Hl. cbn [bind]. rewrite (getitem_member _ _ _ He). cbn [bind].
  rewrite getitem_first. cbn [bind].
  by rewrite (getitem_member _ _ _ Hm), (getitem_member _ _ _ Hi).
Qed.

Lemma decoder_first_error_witness :
  HelpSpotHandler.http_error_400
    (Json.text "{'error': [{'id': 'E7', 'description': null, 'x': 1}, {'id': 2, 'description': 'second'}]}")
  = Raise (HelpSpotError {| HelpSpotError.err_mesg := JNull; HelpSpotError.err_id := JStr "E7" |}).
Proof.
  apply (decoder_first_error _
           [("error", JArr [JObj [("id", JStr "E7"); ("description", JNull); ("x", JInt 1)];
                            JObj [("id", JInt 2); ("description", JStr "second")]])]
           [("id", JStr "E7"); ("description", JNull); ("x", JInt 1)]
           [JObj [("id", JInt 2); ("description", JStr "second")]]);
    reflexivity.
Defined.

Lemma getitem_first_char c r :
  Json.getitem (JStr (String c r)) (IInt 0) = Return (JStr (String c EmptyString)).
Proof.
  unfold Json.getitem, Json.position.
  replace ((0 <=? 0) && (0 <? Z.of_nat (String.length (String c r)))) with true; [done|].
  symmetry. apply andb_true_intro. split; [done|]. apply Z.ltb_lt. simpl. lia.
Qed.

(** X4: where a [HelpSpotError] comes from.  If the handler raises one,
    the body is an object with an [error] member, and either that member
    is an empty array or an empty string and the error is the generic
    one, or it is an array whose first element is an object that holds
    the raised description and id. *)
Theorem decoder_error_origin body err :
  HelpSpotHandler.http_error_400 body = Raise (HelpSpotError err) →
  ∃ members e,
    Json.loads body = Return (JObj members)
    ∧ Json.dict_get "error" members = Some e
    ∧ (((e = JArr [] ∨ e = JStr EmptyString)
        ∧ err = {| HelpSpotError.err_mesg := JStr "Unknown HelpSpot API error";
                   HelpSpotError.err_id := JInt 0 |})
       ∨ ∃ first others,
           e = JArr (JObj first :: others)
           ∧ Json.dict_get "description" first = Some (HelpSpotError.err_mesg err)
           ∧ Json.dict_get "id" first = Some (HelpSpotError.err_id err)).
Proof.
  unfold HelpSpotHandler.http_error_400.
  destruct (Json.loads body) as [errs|e0] eqn:Hl; cbn [bind];
    [|by apply loads_exn in Hl as ->].
  destruct errs as [| | | | |items|members];
    try (cbn [bind except_IndexError Json.getitem]; discriminate).
  destruct (Json.dict_get "error" members) as [e|] eqn:He;
    [rewrite (getitem_member _ _ _ He)
    | rewrite (getitem_no_member _ _ He); cbn [bind except_IndexError]; discriminate].
  cbn [bind]. intros H. exists members, e. split; [done|]. split; [done|].
  destruct e as [| | | |s|items|ms];
    try (cbn [bind except_IndexError Json.getitem] in H; discriminate).
  - destruct s as [|c r].
    + left. split; [by right|].
      cbn [bind except_IndexError Json.getitem] in H. by injection H as <-.
    + rewrite getitem_first_char in H.
      cbn [bind except_IndexError Json.getitem] in H. discriminate.
  - destruct items as [|x others].
    + left. split; [by left|].
      cbn [bind except_IndexError Json.getitem] in H. by injection H as <-.
    + rewrite getitem_first in H. cbn [bind] in H.
      destruct x as [| | | | | |first];
        try (cbn [bind except_IndexError Json.getitem] in H; discriminate).
      destruct (Json.dict_get "description" first) as [m|] eqn:Hm;
        [rewrite (getitem_member _ _ _ Hm) in H
        | rewrite (getitem_no_member _ _ Hm) in H;
          cbn [bind except_IndexError] in H; discriminate].
      destruct (Json.dict_get "id" first) as [i|] eqn:Hi;
        [rewrite (getitem_member _ _ _ Hi) in H
        | rewrite (getitem_no_member _ _ Hi) in H;
          cbn [bind except_IndexError] in H; discriminate].
      cbn [bind except_IndexError fst snd] in H. injection H as <-.
      right. by exists first, others.
Qed.

Lemma decoder_error_origin_witness :
  ∃ members e,
    Json.loads (Json.text "{'error': [{'description': 'Bad token', 'id': 42}]}")
    = Return (JObj members)
    ∧ Json.dict_get "error" members = Some e.
Proof.
  destruct (decoder_error_origin
              (Json.text "{'error': [{'description': 'Bad token', 'id': 42}]}")
              {| HelpSpotError.err_mesg := JStr "Bad token"; HelpSpotError.err_id := JInt 42 |}
              eq_refl) as (members & e & Hl & He & _).
  by exists members, e.
Defined.

(** X5: missing members.  For a body that is an object, a missing
    [error] member raises [KeyError('error')]; when the first element of
    the [error] array is an object, a missing [description] raises
    [KeyError('description')] and, the description being there, a
    missing [id] raises [KeyError('id')]. *)
Theorem decoder_missing_member body members :
  Json.loads body = Return (JObj members) →
  (Json.dict_get "error" members = None →
   HelpSpotHandler.http_error_400 body = Raise (KeyError (IStr "error")))
  ∧ (∀ first others,
       Json.dict_get "error" members = Some (JArr (JObj first :: others)) →
       (Json.dict_get "description" first = None →
        HelpSpotHandler.http_error_400 body = Raise (KeyError (IStr "description")))
       ∧ (is_Some (Json.dict_get "description" first) →
          Json.dict_get "id" first = None →
          HelpSpotHandler.http_error_400 body = Raise (KeyError (IStr "id")))).
Proof.
  intros Hl. unfold HelpSpotHandler.http_error_400. rewrite Hl. cbn [bind]. split.
  - intros He. by rewrite (getitem_no_member _ _ He).
  - intros first others He. rewrite (getitem_member _ _ _ He). cbn [bind].
    rewrite getitem_first. cbn [bind]. split.
    + intros Hm. by rewrite (getitem_no_member _ _ Hm).
    + intros [m Hm] Hi.
      by rewrite (getitem_member _ _ _ Hm), (getitem_no_member _ _ Hi).
Qed.

Lemma decoder_missing_member_witness :
  HelpSpotHandler.http_error_400 (Json.text "{'errors': [{'description': 'x', 'id': 1}]}")
  = Raise (KeyError (IStr "error"))
  ∧ HelpSpotHandler.http_error_400 (Json.text "{'error': [{'message': 'x', 'id': 1}]}")
    = Raise (KeyError (IStr "description"))
  ∧ HelpSpotHandler.http_error_400 (Json.text "{'error': [{'description': 'x', 'code': 1}]}")
    = Raise (KeyError (IStr "id")).
Proof.
  split_and!.
  - by apply (decoder_missing_member _
                [("errors", JArr [JObj [("description", JStr "x"); ("id", JInt 1)]])]).
  - destruct (decoder_missing_member
                (Json.text "{'error': [{'message': 'x', 'id': 1}]}")
                [("error", JArr [JObj [("message", JStr "x"); ("id", JInt 1)]])] eq_refl)
      as [_ H].
    by apply (H [("message", JStr "x"); ("id", JInt 1)] []).
  - destruct (decoder_missing_member
                (Json.text "{'error': [{'description': 'x', 'code': 1}]}")
                [("error", JArr [JObj [("description", JStr "x"); ("code", JInt 1)]])] eq_refl)
      as [_ H].
    by apply (H [("description", JStr "x"); ("code", JInt 1)] []).
Defined.



(** ** [HelpSpotAPI.__call__] and the opener *)
Section CallFacts.
Context {W : Type}.
Variable exchange : urllib.Request → option string → W → urllib.reply * W.

(** Unless the interpreter is Python 3 and the action is not GET, the
    opener passes the request on. *)
Lemma urlopen_sends py self kwargs (w : W) :
  py = Python2 ∨ HelpSpotAPI.action self = "GET" →
  urlopen exchange py (HelpSpotAPI.request py self kwargs).1
    (HelpSpotAPI.request py self kwargs).2 w
  = match exchange (HelpSpotAPI.request py self kwargs).1
            (HelpSpotAPI.request py self kwargs).2 w with
    | (urllib.Response status body, w') =>
        if (200 <=? status) && (status <? 300) then (Return body, w')
        else if status =? 400 then
          (_ <- HelpSpotHandler.http_error_400 body ;; Raise (HTTPError status), w')
        else (Raise (HTTPError status), w')
    | (urllib.NoResponse, w') => (Raise URLError, w')
    end.
Proof.
  intros [->|Hget]; [done|].
  apply (message_body_follows_action py self kwargs) in Hget.
  unfold urlopen. rewrite Hget. by destruct py.
Qed.

Lemma call_unfold py self kwargs (w : W) :
  HelpSpotAPI.__call__ exchange py self kwargs w
  = let r := urlopen exchange py (HelpSpotAPI.request py self kwargs).1
               (HelpSpotAPI.request py self kwargs).2 w in
    (body <- r.1 ;; Json.loads body, self, r.2).
Proof.
  unfold HelpSpotAPI.__call__.
  destruct (HelpSpotAPI.request py self kwargs) as [req message_body].
  cbn [fst snd]. by destruct (urlopen exchange py req message_body w).
Qed.

Lemma status_2xx status :
  200 ≤ status < 300 → (200 <=? status) && (status <? 300) = true.
Proof.
  intros H. apply andb_true_intro. split; [apply Z.leb_le | apply Z.ltb_lt]; lia.
Qed.

(** The result and the world of a call whose request is passed on and
    answered with a 2xx status. *)
Lemma call_answered py self kwargs (w w' : W) status body :
  py = Python2 ∨ HelpSpotAPI.action self = "GET" →
  200 ≤ status < 300 →
  exchange (HelpSpotAPI.request py self kwargs).1
    (HelpSpotAPI.request py self kwargs).2 w = (urllib.Response status body, w') →
  HelpSpotAPI.__call__ exchange py self kwargs w = (Json.loads body, self, w').
Proof.
  intros Hpy Hstatus Hex.
  by rewrite call_unfold, (urlopen_sends _ _ _ _ Hpy), Hex, (status_2xx _ Hstatus).
Qed.


End CallFacts.

(** X7: a reply with status 400.  When the server answers the request of
    a call with status 400, the call raises what [http_error_400] raises
    on the body of the reply, which is never the plain [HTTPError] of
    that status.  (The interpreter is Python 2, or the action is GET.) *)
Theorem call_status_400 {W : Type}
    (exchange : urllib.Request → option string → W → urllib.reply * W)
    py self kwargs (w w' : W) body :
  py = Python2 ∨ HelpSpotAPI.action self = "GET" →
  exchange (HelpSpotAPI.request py self kwargs).1
    (HelpSpotAPI.request py self kwargs).2 w = (urllib.Response 400 body, w') →
  ∃ e, HelpSpotHandler.http_error_400 body = Raise e
       ∧ HelpSpotAPI.__call__ exchange py self kwargs w = (Raise e, self, w')
       ∧ e ≠ HTTPError 400.
Proof.
  intros Hpy Hex. destruct (http_error_400_raises body) as [e He]. exists e.
  split; [done|]. split.
  - rewrite call_unfold, (urlopen_sends exchange _ _ _ _ Hpy), Hex.
    change ((200 <=? 400) && (400 <? 300)) with false.
    change (400 =? 400) with true. cbv iota. by rewrite He.
  - by destruct (http_error_400_exceptions _ _ He) as [[? ->]|[->|[->|[? ->]]]].
Qed.

Lemma call_status_400_witness :
  let exchange (req : urllib.Request) (data : option string) (w : nat) :=
    (urllib.Response 400 (Json.text "{'error': [{'description': 'Bad token', 'id': 42}]}"),
     S w) in
  let self := {| HelpSpotAPI.method := "private.version";
                 HelpSpotAPI.user := "user";
                 HelpSpotAPI.password := "pass";
                 HelpSpotAPI.authz := Text "dXNlcjpwYXNz";
                 HelpSpotAPI.uri := "http://helpdesk.example.com/help/api/index.php?method=";
                 HelpSpotAPI.action := "GET" |} in
  HelpSpotAPI.__call__ exchange Python2 self [] 0%nat
  = (Raise (HelpSpotError {| HelpSpotError.err_mesg := JStr "Bad token";
                             HelpSpotError.err_id := JInt 42 |}), self, 1%nat).
Proof.
  intros exchange self.
  destruct (call_status_400 exchange Python2 self [] 0%nat 1%nat
              (Json.text "{'error': [{'description': 'Bad token', 'id': 42}]}")
              (or_introl eq_refl) eq_refl) as (e & He & Hcall & _).
  rewrite Hcall. by injection He as <-.
Defined.







(** ** [HelpSpotAPI.__init__] *)
Section InitFacts.

Lemma rstrip_all p t : Str.forallb p t = true → Str.rstrip p t = EmptyString.
Proof.
  induction t as [|c t IH]; [done|]. simpl.
  intros [Hc Ht]%andb_prop. by rewrite (IH Ht), Hc.
Qed.

Lemma rstrip_app_stripped p s t :
  Str.forallb p t = true → Str.rstrip p (s +:+ t) = Str.rstrip p s.
Proof.
  intros Ht. induction s as [|c s IH]; [by apply rstrip_all|].
  rewrite app_cons. simpl. by rewrite IH.
Qed.

Lemma replace_no_old old new s :
  old ≠ new → Str.contains old (Str.replace old new s) = false.
Proof.
  intros Hne. unfold Str.replace. induction s as [|c s IH]; [done|]. simpl. rewrite IH.
  destruct (Ascii.eqb_spec c old) as [->|Hc].
  - by destruct (Ascii.eqb_spec old new).
  - destruct (Ascii.eqb_spec old c); [congruence | done].
Qed.

Lemma replace_absent old new s :
  Str.contains old s = false → Str.replace old new s = s.
Proof.
  unfold Str.replace. induction s as [|c s IH]; [done|]. simpl.
  intros [Hc Hs]%orb_false_elim. rewrite (IH Hs).
  rewrite Ascii.eqb_sym in Hc. by rewrite Hc.
Qed.

End InitFacts.

(** X11: trailing slashes of the endpoint do not matter.  An endpoint
    followed by any number of slashes constructs the same invoker as
    the endpoint itself; an endpoint made of slashes only (or empty) is
    accepted and leaves [/api/index.php?method=] as the URI. *)
Theorem init_trailing_slashes py method user password uri slashes :
  Str.forallb (Ascii.eqb "/") slashes = true →
  HelpSpotAPI.__init__ py method user password (uri +:+ slashes)
  = HelpSpotAPI.__init__ py method user password uri
  ∧ (∀ self, HelpSpotAPI.__init__ py method user password slashes = Return self →
             HelpSpotAPI.uri self = "/api/index.php?method=").
Proof.
  intros Hsl. split.
  - unfold HelpSpotAPI.__init__. by rewrite rstrip_app_stripped.
  - intros self (_ & _ & _ & _ & _ & _ & Huri & _)%init_fields.
    by rewrite Huri, rstrip_all.
Qed.

Lemma init_trailing_slashes_witness :
  HelpSpotAPI.__init__ Python2 "version" "user" "pass" ("http://helpdesk.example.com/help" +:+ "///")
  = HelpSpotAPI.__init__ Python2 "version" "user" "pass" "http://helpdesk.example.com/help".
Proof.
  by destruct (init_trailing_slashes Python2 "version" "user" "pass"
                 "http://helpdesk.example.com/help" "///" eq_refl) as [H _].
Defined.

(** X12: the wire-form name never contains an underscore.  A caller
    name without underscore is kept as it is, and two caller names with
    the same dotted form construct the same invoker, so a method can be
    named with dots as well as with underscores. *)
Theorem wire_name_no_underscore py method user password uri self :
  HelpSpotAPI.__init__ py method user password uri = Return self →
  Str.contains "_" (HelpSpotAPI.method self) = false
  ∧ (Str.contains "_" method = false → HelpSpotAPI.method self = method)
  ∧ (∀ method', Str.replace "_" "." method' = Str.replace "_" "." method →
                HelpSpotAPI.__init__ py method' user password uri = Return self).
Proof.
  intros Hinit.
  pose proof Hinit as (_ & _ & Hm & _)%init_fields. rewrite Hm.
  split; [by apply replace_no_old|]. split; [apply replace_absent|].
  intros method' Heq. rewrite <- Hinit. unfold HelpSpotAPI.__init__. by rewrite Heq.
Qed.

Lemma wire_name_no_underscore_witness :
  ∃ self,
    HelpSpotAPI.__init__ Python2 "private_request_update" "user" "pass"
      "http://helpdesk.example.com/help" = Return self
    ∧ Str.contains "_" (HelpSpotAPI.method self) = false
    ∧ HelpSpotAPI.__init__ Python2 "private.request_update" "user" "pass"
        "http://helpdesk.example.com/help" = Return self.
Proof.
  eexists. split; [reflexivity|].
  destruct (wire_name_no_underscore Python2 "private_request_update" "user" "pass"
              "http://helpdesk.example.com/help" _ eq_refl) as (Hno & _ & Hsame).
  split; [exact Hno|]. by apply Hsame.
Defined.

(** X13: the authorization token of a constructed invoker is exactly
    the base64 encoding of [user:password] (of its UTF-8 encoding under
    Python 3): the [rstrip()] applied to it removes nothing.  It is a
    [str] under Python 2 and a [bytes] object under Python 3. *)
Theorem authz_token py method user password uri self :
  HelpSpotAPI.__init__ py method user password uri = Return self →
  HelpSpotAPI.authz self
  = match py with
    | Python2 => Text (base64.encode (user +:+ ":" +:+ password))
    | Python3 => Bytes (base64.encode (Codec.utf8 (user +:+ ":" +:+ password)))
    end.
Proof.
  intros (b & Hb & _ & _ & _ & Hauthz & _)%init_fields. rewrite Hauthz.
  destruct py; cbn [base64.b64encode Codec.rstrip]; rewrite rstrip_encode.
  - unfold HelpSpotAPI.encode_utf8 in Hb. destruct (Str.forallb _ _); by simplify_eq.
  - rewrite encode_utf8_python3 in Hb. by injection Hb as <-.
Qed.

Lemma authz_token_witness :
  ∃ self,
    HelpSpotAPI.__init__ Python3 "private_version" "you@example.com" "idontknow"
      "http://helpdesk.example.com/help" = Return self
    ∧ HelpSpotAPI.authz self = Bytes "eW91QGV4YW1wbGUuY29tOmlkb250a25vdw==".
Proof.
  eexists. split; [reflexivity|].
  exact (authz_token Python3 "private_version" "you@example.com" "idontknow"
           "http://helpdesk.example.com/help" _ eq_refl).
Defined.

(** X14: when construction fails.  [__init__] raises exactly when the
    interpreter is Python 2 and the user or the password holds a byte
    above 127, and what it raises is [UnicodeDecodeError]; the method
    name and the endpoint never make it fail. *)
Theorem init_failure py method user password uri e :
  HelpSpotAPI.__init__ py method user password uri = Raise e
  ↔ py = Python2
    ∧ Str.forallb Codec.is_ascii (user +:+ ":" +:+ password) = false
    ∧ e = UnicodeDecodeError.
Proof.
  unfold HelpSpotAPI.__init__, HelpSpotAPI.encode_utf8. destruct py.
  - destruct (Str.forallb _ _); cbn [bind].
    + split; [done | by intros (_ & ? & _)].
    + split; [by intros [= <-] | by intros (_ & _ & ->)].
  - split; [done | by intros (? & _)].
Qed.

(** X15: every method of [_POST_METHODS] is reached through its
    underscore spelling: the caller name obtained by writing an
    underscore for each dot constructs an invoker with that wire-form
    name and action POST. *)
Theorem post_methods_reachable py user password uri b :
  HelpSpotAPI.encode_utf8 py (user +:+ ":" +:+ password) = Return b →
  Forall (λ wire,
    ∃ self,
      HelpSpotAPI.__init__ py (Str.replace "." "_" wire) user password uri = Return self
      ∧ HelpSpotAPI.method self = wire
      ∧ HelpSpotAPI.action self = "POST")
    _POST_METHODS.
Proof.
  intros Hb. unfold _POST_METHODS.
  repeat (constructor; [eexists; split; [by apply init_returns | by split]|]).
  constructor.
Qed.

Lemma post_methods_reachable_witness :
  HelpSpotAPI.encode_utf8 Python2 ("user" +:+ ":" +:+ "pass") = Return "user:pass"
  ∧ ∃ self,
      HelpSpotAPI.__init__ Python2 "private_request_addTimeEvent" "user" "pass"
        "http://helpdesk.example.com/help" = Return self
      ∧ HelpSpotAPI.method self = "private.request.addTimeEvent"
      ∧ HelpSpotAPI.action self = "POST".
Proof.
  split; [reflexivity|].
  pose proof (post_methods_reachable Python2 "user" "pass"
                "http://helpdesk.example.com/help" "user:pass" eq_refl) as Hall.
  rewrite Forall_forall in Hall.
  apply (Hall "private.request.addTimeEvent").
  by apply str_in_spec.
Defined.

(** ** The request of a call *)
Section RequestFacts.

Lemma length_app s t : String.length (s +:+ t) = (String.length s + String.length t)%nat.
Proof. induction s as [|c s IH]; [done|]. rewrite app_cons. simpl. by rewrite IH. Qed.

Lemma occurrences_app c s t :
  occurrences c (s +:+ t) = (occurrences c s + occurrences c t)%nat.
Proof. induction s as [|d s IH]; [done|]. rewrite app_cons. simpl. rewrite IH. lia. Qed.

Lemma occurrences_absent c s :
  Str.forallb (λ d, negb (Ascii.eqb c d)) s = true → occurrences c s = O.
Proof.
  induction s as [|d s IH]; [done|]. simpl.
  intros [Hd Hs]%andb_prop. rewrite (IH Hs). by destruct (Ascii.eqb c d).
Qed.

Lemma forallb_flat_map p f s :
  (∀ c, Str.forallb p (f c) = true) → Str.forallb p (Str.flat_map f s) = true.
Proof.
  intros Hf. induction s as [|c s IH]; [done|]. simpl.
  assert (Happ : ∀ a b, Str.forallb p a = true → Str.forallb p b = true →
                        Str.forallb p (a +:+ b) = true).
  { induction a as [|x a IHa]; [done|]. intros b. rewrite app_cons. simpl.
    intros [Hx Ha]%andb_prop Hb. by rewrite Hx, IHa. }
  by apply Happ.
Qed.

Lemma forallb_map p f s :
  (∀ c, p c = true → p (f c) = true) →
  Str.forallb p s = true → Str.forallb p (Str.map f s) = true.
Proof.
  intros Hf. induction s as [|c s IH]; [done|]. simpl.
  intros [Hc Hs]%andb_prop. by rewrite (Hf _ Hc), IH.
Qed.

Lemma quote_byte_no_separator py c :
  Str.forallb not_separator (urllib.quote_byte py EmptyString c) = true
  ∧ Str.forallb not_separator (urllib.quote_byte py " " c) = true.
Proof. by destruct py, c as [[] [] [] [] [] [] [] []]. Qed.

Lemma quote_plus_no_separator py s :
  Str.forallb not_separator (urllib.quote_plus py s) = true.
Proof.
  unfold urllib.quote_plus, urllib.quote, Str.replace.
  destruct (Str.contains " " s).
  - apply forallb_map.
    + intros c Hc. by destruct (Ascii.eqb c " ").
    + apply forallb_flat_map. intros c. apply quote_byte_no_separator.
  - apply forallb_flat_map. intros c. apply quote_byte_no_separator.
Qed.

Lemma quote_plus_occurrences py s :
  occurrences "&" (urllib.quote_plus py s) = O
  ∧ occurrences "=" (urllib.quote_plus py s) = O.
Proof.
  split; apply occurrences_absent;
    eapply forallb_impl, (quote_plus_no_separator py s);
    unfold not_separator; intros c [? ?]%andb_prop; done.
Qed.

Lemma pair_occurrences py kv :
  occurrences "&" (urllib.pair py kv) = O ∧ occurrences "=" (urllib.pair py kv) = 1%nat.
Proof.
  unfold urllib.pair. rewrite !occurrences_app.
  destruct (quote_plus_occurrences py kv.1) as [-> ->].
  by destruct (quote_plus_occurrences py (urllib.str kv.2)) as [-> ->].
Qed.

End RequestFacts.

(** X16: the credentials do not reach the request of a public method.
    Two invokers constructed for the same method and endpoint with
    different credentials build the same URL and the same message body,
    and, when the wire-form name does not start with [private.], the
    same request. *)
Theorem request_ignores_credentials py method uri user1 password1 user2 password2
    self1 self2 kwargs :
  HelpSpotAPI.__init__ py method user1 password1 uri = Return self1 →
  HelpSpotAPI.__init__ py method user2 password2 uri = Return self2 →
  urllib.full_url (HelpSpotAPI.request py self1 kwargs).1
  = urllib.full_url (HelpSpotAPI.request py self2 kwargs).1
  ∧ (HelpSpotAPI.request py self1 kwargs).2 = (HelpSpotAPI.request py self2 kwargs).2
  ∧ (Str.startswith (Str.replace "_" "." method) "private." = false →
     HelpSpotAPI.request py self1 kwargs = HelpSpotAPI.request py self2 kwargs).
Proof.
  intros (_ & _ & Hm1 & _ & _ & _ & Hu1 & Ha1)%init_fields
         (_ & _ & Hm2 & _ & _ & _ & Hu2 & Ha2)%init_fields.
  unfold HelpSpotAPI.request. rewrite Hu1, Hu2, Ha1, Ha2, Hm1, Hm2.
  destruct (String.eqb "GET" _); [destruct (Str.is_empty _)|];
    destruct (Str.startswith _ _); by split_and!.
Qed.

Lemma request_ignores_credentials_witness :
  ∃ self1 self2,
    HelpSpotAPI.__init__ Python2 "request_create" "alice" "secret"
      "http://helpdesk.example.com/help" = Return self1
    ∧ HelpSpotAPI.__init__ Python2 "request_create" "bob" "hunter2"
        "http://helpdesk.example.com/help" = Return self2
    ∧ HelpSpotAPI.request Python2 self1 [("tNote", SStr "x")]
      = HelpSpotAPI.request Python2 self2 [("tNote", SStr "x")].
Proof.
  eexists _, _. split; [reflexivity|]. split; [reflexivity|].
  destruct (request_ignores_credentials Python2 "request_create"
              "http://helpdesk.example.com/help" "alice" "secret" "bob" "hunter2"
              _ _ [("tNote", SStr "x")] eq_refl eq_refl) as (_ & _ & H).
  by apply H.
Defined.

(** X17: the headers of a request.  The keyword parameters never change
    them, Authorization is the only header a call ever sets, and it is
    set exactly when the wire-form name starts with [private.]. *)
Theorem only_authorization_header py self kwargs :
  urllib.headers (HelpSpotAPI.request py self kwargs).1
  = urllib.headers (HelpSpotAPI.request py self []).1
  ∧ (∀ name, is_Some (urllib.headers (HelpSpotAPI.request py self kwargs).1 !! name) →
             name = "Authorization")
  ∧ (is_Some (urllib.headers (HelpSpotAPI.request py self kwargs).1 !! "Authorization")
     ↔ Str.startswith (HelpSpotAPI.method self) "private." = true).
Proof.
  rewrite !authorization_scope. split; [done|].
  destruct (Str.startswith _ _).
  - split.
    + intros name [v Hv]. by apply lookup_singleton_Some in Hv as [<- _].
    + by rewrite lookup_singleton_eq.
  - split.
    + intros name [v Hv]. by rewrite lookup_empty in Hv.
    + rewrite lookup_empty. split; [by intros [? ?] | done].
Qed.

(** X18: under Python 2 the request of a private method carries the
    header Authorization with value [Basic ] followed by the base64
    encoding of [user:password], whatever the keyword parameters. *)
Theorem private_header_python2 method user password uri self kwargs :
  HelpSpotAPI.__init__ Python2 method user password uri = Return self →
  Str.startswith (HelpSpotAPI.method self) "private." = true →
  urllib.headers (HelpSpotAPI.request Python2 self kwargs).1 !! "Authorization"
  = Some ("Basic " +:+ base64.encode (user +:+ ":" +:+ password)).
Proof.
  intros Hinit Hprivate.
  by rewrite (authorization_python2 _ _ _ _ _ kwargs Hinit), Hprivate.
Qed.

Lemma private_header_python2_witness :
  ∃ self,
    HelpSpotAPI.__init__ Python2 "private_request_update" "you@example.com" "idontknow"
      "http://helpdesk.example.com/help" = Return self
    ∧ urllib.headers
        (HelpSpotAPI.request Python2 self [("xRequest", SStr "12345")]).1 !! "Authorization"
      = Some "Basic eW91QGV4YW1wbGUuY29tOmlkb250a25vdw==".
Proof.
  eexists. split; [reflexivity|].
  exact (private_header_python2 "private_request_update" "you@example.com" "idontknow"
           "http://helpdesk.example.com/help" _ [("xRequest", SStr "12345")]
           eq_refl eq_refl).
Defined.

(** X19: under Python 3 the request of every private method carries the
    header Authorization with value [Basic b'], the base64 encoding of
    the UTF-8 encoded [user:password], and [']; this is never [Basic ]
    followed by that encoding. *)
Theorem private_header_python3 method user password uri self kwargs :
  HelpSpotAPI.__init__ Python3 method user password uri = Return self →
  Str.startswith (HelpSpotAPI.method self) "private." = true →
  let token := base64.encode (Codec.utf8 (user +:+ ":" +:+ password)) in
  urllib.headers (HelpSpotAPI.request Python3 self kwargs).1 !! "Authorization"
  = Some ("Basic " +:+ "b'" +:+ token +:+ "'")
  ∧ urllib.headers (HelpSpotAPI.request Python3 self kwargs).1 !! "Authorization"
    ≠ Some ("Basic " +:+ token).
Proof.
  intros Hinit Hprivate token.
  rewrite (authorization_python3 _ _ _ _ _ kwargs Hinit), Hprivate.
  split; [done|]. fold token. intros [= H].
  apply (f_equal String.length) in H. rewrite !length_app in H. simpl in H. lia.
Qed.

Lemma private_header_python3_witness :
  ∃ self,
    HelpSpotAPI.__init__ Python3 "private_request_update" "you@example.com" "idontknow"
      "http://helpdesk.example.com/help" = Return self
    ∧ urllib.headers
        (HelpSpotAPI.request Python3 self [("xRequest", SStr "12345")]).1 !! "Authorization"
      = Some "Basic b'eW91QGV4YW1wbGUuY29tOmlkb250a25vdw=='".
Proof.
  eexists. split; [reflexivity|].
  destruct (private_header_python3 "private_request_update" "you@example.com" "idontknow"
              "http://helpdesk.example.com/help" _ [("xRequest", SStr "12345")]
              eq_refl eq_refl) as [H _].
  exact H.
Defined.

(** X20: keys and values cannot add separators.  The URL-encoded
    parameters of a call hold one [=] for each keyword parameter and one
    [&] between two consecutive ones, whatever characters the keys and
    the values contain. *)
Theorem urlencode_separators py kwargs :
  occurrences "=" (urllib.urlencode py kwargs) = length kwargs
  ∧ occurrences "&" (urllib.urlencode py kwargs) = pred (length kwargs).
Proof.
  assert (Hconcat : ∀ sep x y (l : list string),
            String.concat sep (x :: y :: l) = x +:+ sep +:+ String.concat sep (y :: l))
    by done.
  unfold urllib.urlencode, Str.join.
  induction kwargs as [|kv l IH]; [done|].
  rewrite fmap_cons. destruct (pair_occurrences py kv) as [Hamp Heq].
  destruct l as [|kv' l].
  - simpl. by rewrite Hamp, Heq.
  - rewrite fmap_cons in *. rewrite Hconcat.
    destruct IH as [IHeq IHamp]. rewrite !occurrences_app, Hamp, Heq, IHeq, IHamp.
    simpl. lia.
Qed.

(** ** [HelpSpot.__getattr__] and method calls on the client *)
Section ClientFacts.
Context {W C : Type}.
Variable exchange : urllib.Request → option string → W → urllib.reply * W.
Variable class_data class_other : string → option C.
Variable class_call : C → list (string * scalar) → W → result json * W.

Lemma getattr_stored py uri user password key :
  class_data key = None →
  key ∈ ["uri"; "user"; "password"] →
  ∃ v, HelpSpot.getattr class_data class_other py (HelpSpot.__init__ uri user password) key
       = Return (HelpSpot.InstanceVariable v).
Proof.
  intros Hdata Hkey. unfold HelpSpot.getattr, HelpSpot.__dict__. rewrite Hdata.
  cbn [HelpSpot.uri HelpSpot.user HelpSpot.password].
  apply elem_of_cons in Hkey as [->|Hkey]; [by eexists|].
  apply elem_of_cons in Hkey as [->|Hkey]; [by eexists|].
  apply elem_of_cons in Hkey as [->|Hkey]; [by eexists|].
  by apply elem_of_nil in Hkey.
Qed.

Lemma getattr_invoker py hs key api :
  HelpSpot.getattr class_data class_other py hs key = Return (HelpSpot.Invoker api) →
  HelpSpotAPI.__init__ py key (HelpSpot.user hs) (HelpSpot.password hs) (HelpSpot.uri hs)
  = Return api.
Proof.
  unfold HelpSpot.getattr, HelpSpot.__getattr__.
  cbn [HelpSpot.object___getattr__].
  destruct (class_data key); [done|].
  destruct (HelpSpot.__dict__ hs !! key); [done|].
  destruct (class_other key); [done|].
  destruct (HelpSpotAPI.__init__ _ _ _ _ _); cbn [bind]; by intros [= ->].
Qed.

Lemma getattr_fresh py hs key :
  class_data key = None → class_other key = None →
  key ∉ ["uri"; "user"; "password"] →
  HelpSpot.getattr class_data class_other py hs key
  = (api <- HelpSpotAPI.__init__ py key (HelpSpot.user hs) (HelpSpot.password hs)
              (HelpSpot.uri hs) ;;
     Return (HelpSpot.Invoker api)).
Proof.
  intros Hdata Hother Hkey. unfold HelpSpot.getattr, HelpSpot.__dict__.
  rewrite Hdata, Hother. rewrite !not_elem_of_cons in Hkey.
  destruct Hkey as (? & ? & ? & _).
  by rewrite !lookup_insert_ne, lookup_singleton_ne by done.
Qed.

End ClientFacts.

(** X21: an invoker obtained from the client is bound to the client's
    data: its user and password are the client's, its URI is the
    client's endpoint without trailing slashes followed by
    [/api/index.php?method=], and its method is the accessed name with
    dots for underscores. *)
Theorem client_invoker_fields {C : Type} (class_data class_other : string → option C)
    py hs key api :
  HelpSpot.getattr class_data class_other py hs key = Return (HelpSpot.Invoker api) →
  HelpSpotAPI.user api = HelpSpot.user hs
  ∧ HelpSpotAPI.password api = HelpSpot.password hs
  ∧ HelpSpotAPI.uri api
    = Str.rstrip (Ascii.eqb "/") (HelpSpot.uri hs) +:+ "/api/index.php?method="
  ∧ HelpSpotAPI.method api = Str.replace "_" "." key.
Proof.
  intros Hget. apply getattr_invoker in Hget.
  by apply init_fields in Hget as (_ & _ & ? & ? & ? & _ & ? & _).
Qed.

Lemma client_invoker_fields_witness :
  let none (k : string) : option unit := None in
  let hs := HelpSpot.__init__ "http://helpdesk.example.com/help/" "you@example.com"
              "idontknow" in
  ∃ api,
    HelpSpot.getattr none none Python2 hs "private_version" = Return (HelpSpot.Invoker api)
    ∧ HelpSpotAPI.user api = "you@example.com"
    ∧ HelpSpotAPI.uri api = "http://helpdesk.example.com/help/api/index.php?method=".
Proof.
  intros none hs. eexists. split; [reflexivity|].
  destruct (client_invoker_fields none none Python2 hs "private_version" _ eq_refl)
    as (Huser & _ & Huri & _).
  split; [exact Huser | exact Huri].
Defined.

(** X22: the names of the client's instance variables cannot be called.
    A method call on the client under the name [uri], [user] or
    [password] raises [TypeError] and sends nothing, so the remote
    methods of these names are out of reach of the client.  (No data
    descriptor of the class has that name.) *)
Theorem client_call_stored_name {W C : Type}
    (exchange : urllib.Request → option string → W → urllib.reply * W)
    (class_data class_other : string → option C)
    (class_call : C → list (string * scalar) → W → result json * W)
    py uri user password key kwargs (w : W) :
  class_data key = None →
  key ∈ ["uri"; "user"; "password"] →
  method_call exchange class_data class_other class_call py
    (HelpSpot.__init__ uri user password) key kwargs w
  = (Raise TypeError, w).
Proof.
  intros Hdata Hkey. unfold method_call.
  by destruct (getattr_stored class_data class_other py uri user password key Hdata Hkey)
    as [v ->].
Qed.

Lemma client_call_stored_name_witness :
  let none (k : string) : option unit := None in
  let exchange (req : urllib.Request) (data : option string) (w : nat) :=
    (urllib.Response 200 "{}", S w) in
  let call (c : unit) (kwargs : list (string * scalar)) (w : nat) :=
    (Return JNull, w) in
  method_call exchange none none call Python3
    (HelpSpot.__init__ "http://helpdesk.example.com/help" "you@example.com" "idontknow")
    "user" [("xPerson", SInt 7)] 0%nat
  = (Raise TypeError, 0%nat).
Proof.
  intros none exchange call.
  apply (client_call_stored_name exchange none none call Python3); [reflexivity|].
  apply elem_of_cons. right. apply elem_of_cons. by left.
Defined.

(** ** [main] *)
Section MainFacts.
Context {W C : Type}.
Variable exchange : urllib.Request → option string → W → urllib.reply * W.
Variable class_data class_other : string → option C.
Variable class_call : C → list (string * scalar) → W → result json * W.

(** A method call under a name that is no attribute of the client is the
    call of the invoker constructed for that name. *)
Lemma method_call_invoker py uri user password key kwargs (w : W) api :
  class_data key = None → class_other key = None →
  key ∉ ["uri"; "user"; "password"] →
  HelpSpotAPI.__init__ py key user password uri = Return api →
  method_call exchange class_data class_other class_call py
    (HelpSpot.__init__ uri user password) key kwargs w
  = ((HelpSpotAPI.__call__ exchange py api kwargs w).1.1,
     (HelpSpotAPI.__call__ exchange py api kwargs w).2).
Proof.
  intros Hdata Hother Hkey Hinit. unfold method_call.
  rewrite (getattr_fresh class_data class_other py _ key Hdata Hother Hkey).
  cbn [HelpSpot.uri HelpSpot.user HelpSpot.password]. by rewrite Hinit.
Qed.

Lemma version_names_fresh :
  ("version" ∉ ["uri"; "user"; "password"])
  ∧ ("private_version" ∉ ["uri"; "user"; "password"]).
Proof. split; rewrite !not_elem_of_cons; split_and!; try done; apply not_elem_of_nil. Qed.

End MainFacts.

(** X23: with fewer than three arguments after the program name, [main]
    ends with [IndexError] before anything is printed or sent. *)
Theorem main_missing_arguments {W C : Type}
    (exchange : urllib.Request → option string → W → urllib.reply * W)
    (class_data class_other : string → option C)
    (class_call : C → list (string * scalar) → W → result json * W)
    (py_eq : json → json → bool) py argv (w : W) :
  (length argv < 4)%nat →
  main exchange class_data class_other class_call py_eq py argv w
  = (Uncaught IndexError, [], w).
Proof.
  intros Hlen.
  destruct argv as [|a0 [|a1 [|a2 [|a3 rest]]]]; try done.
  simpl in Hlen. lia.
Qed.

Lemma main_missing_arguments_witness :
  let none (k : string) : option unit := None in
  let exchange (req : urllib.Request) (data : option string) (w : nat) :=
    (urllib.Response 200 "{}", S w) in
  let call (c : unit) (kwargs : list (string * scalar)) (w : nat) :=
    (Return JNull, w) in
  main exchange none none call (λ _ _, true) Python2
    ["api.py"; "you@example.com"; "idontknow"] 0%nat
  = (Uncaught IndexError, [], 0%nat).
Proof.
  intros none exchange call.
  apply (main_missing_arguments exchange none none call). simpl. lia.
Defined.



(** X25: [main] when both calls succeed.  When the server answers the
    [version] request and then the [private.version] request with 2xx
    replies whose bodies decode to [ver1] and [ver2], [main] prints the
    two values in that order, and it ends normally when the two are
    equal and with the failure of its [assert] when they are not.  (The
    class provides no attribute named [version] or [private_version].) *)
Theorem main_both_calls_succeed {W C : Type}
    (exchange : urllib.Request → option string → W → urllib.reply * W)
    (class_data class_other : string → option C)
    (class_call : C → list (string * scalar) → W → result json * W)
    (py_eq : json → json → bool) py prog user password uri rest
    (w w1 w2 : W) api1 api2 status1 body1 ver1 status2 body2 ver2 :
  class_data "version" = None → class_other "version" = None →
  class_data "private_version" = None → class_other "private_version" = None →
  HelpSpotAPI.__init__ py "version" user password uri = Return api1 →
  HelpSpotAPI.__init__ py "private_version" user password uri = Return api2 →
  exchange (HelpSpotAPI.request py api1 []).1 None w = (urllib.Response status1 body1, w1) →
  200 ≤ status1 < 300 → Json.loads body1 = Return ver1 →
  exchange (HelpSpotAPI.request py api2 []).1 None w1 = (urllib.Response status2 body2, w2) →
  200 ≤ status2 < 300 → Json.loads body2 = Return ver2 →
  main exchange class_data class_other class_call py_eq py
    (prog :: user :: password :: uri :: rest) w
  = (if py_eq ver1 ver2 then Finished else AssertionFailed,
     [("version returned", ver1); ("private.version returned", ver2)], w2).
Proof.
  intros Hd1 Ho1 Hd2 Ho2 Hinit1 Hinit2 Hex1 Hs1 Hv1 Hex2 Hs2 Hv2.
  assert (Hget : ∀ method api, HelpSpotAPI.__init__ py method user password uri = Return api →
            str_in (Str.replace "_" "." method) _POST_METHODS = false →
            HelpSpotAPI.action api = "GET"
            ∧ (HelpSpotAPI.request py api []).2 = None).
  { intros method api (_ & _ & Hm & _ & _ & _ & _ & Ha)%init_fields Hin.
    rewrite Hm, Hin in Ha. split; [done|]. by apply message_body_follows_action. }
  destruct (Hget _ _ Hinit1 eq_refl) as [Ha1 Hb1].
  destruct (Hget _ _ Hinit2 eq_refl) as [Ha2 Hb2].
  rewrite <- Hb1 in Hex1. rewrite <- Hb2 in Hex2.
  pose proof (call_answered exchange py api1 [] w w1 status1 body1
                (or_intror Ha1) Hs1 Hex1) as Hcall1.
  pose proof (call_answered exchange py api2 [] w1 w2 status2 body2
                (or_intror Ha2) Hs2 Hex2) as Hcall2.
  unfold main. cbn [argv_at nth_error bind].
  rewrite (method_call_invoker exchange class_data class_other class_call
             py uri user password "version" [] w api1 Hd1 Ho1
             (proj1 version_names_fresh) Hinit1).
  rewrite Hcall1, Hv1. cbn [fst snd].
  rewrite (method_call_invoker exchange class_data class_other class_call
             py uri user password "private_version" [] w1 api2 Hd2 Ho2
             (proj2 version_names_fresh) Hinit2).
  rewrite Hcall2, Hv2. cbn [fst snd]. by destruct (py_eq ver1 ver2).
Qed.

Lemma main_both_calls_succeed_witness :
  let none (k : string) : option unit := None in
  let exchange (req : urllib.Request) (data : option string)
        (w : list (string * option string)) :=
    (urllib.Response 200 (Json.text "{'version': '3.0'}"),
     w ++ [(urllib.full_url req, urllib.headers req !! "Authorization")]) in
  let call (c : unit) (kwargs : list (string * scalar)) (w : list (string * option string)) :=
    (Return JNull, w) in
  main exchange none none call (λ _ _, true) Python2
    ["api.py"; "you@example.com"; "idontknow"; "http://helpdesk.example.com/help"] []
  = (Finished,
     [("version returned", JObj [("version", JStr "3.0")]);
      ("private.version returned", JObj [("version", JStr "3.0")])],
     [("http://helpdesk.example.com/help/api/index.php?method=version&output=json", None);
      ("http://helpdesk.example.com/help/api/index.php?method=private.version&output=json",
       Some "Basic eW91QGV4YW1wbGUuY29tOmlkb250a25vdw==")]).
Proof.
  intros none exchange call.
  pose (api := λ method,
    {| HelpSpotAPI.method := method;
       HelpSpotAPI.user := "you@example.com";
       HelpSpotAPI.password := "idontknow";
       HelpSpotAPI.authz := Text "eW91QGV4YW1wbGUuY29tOmlkb250a25vdw==";
       HelpSpotAPI.uri := "http://helpdesk.example.com/help/api/index.php?method=";
       HelpSpotAPI.action := "GET" |}).
  pose (url1 := "http://helpdesk.example.com/help/api/index.php?method=version&output=json").
  pose (url2 :=
    "http://helpdesk.example.com/help/api/index.php?method=private.version&output=json").
  pose (auth := Some "Basic eW91QGV4YW1wbGUuY29tOmlkb250a25vdw==").
  apply (main_both_calls_succeed exchange none none call (λ _ _, true) Python2
           "api.py" "you@example.com" "idontknow" "http://helpdesk.example.com/help" []
           [] [(url1, None)] [(url1, None); (url2, auth)]
           (api "version") (api "private.version")
           200 (Json.text "{'version': '3.0'}") (JObj [("version", JStr "3.0")])
           200 (Json.text "{'version': '3.0'}") (JObj [("version", JStr "3.0")]));
    first [reflexivity | lia].
Defined.

(** ** The token and the credentials *)
Section Base64Injective.

Lemma lor_shiftl_add a b k :
  0 ≤ k → 0 ≤ b < 2 ^ k → Z.lor (Z.shiftl a k) b = a * 2 ^ k + b.
Proof.
  intros Hk Hb.
  assert (Hland : Z.land (Z.shiftl a k) b = 0).
  { apply Z.bits_inj'. intros n Hn. rewrite Z.land_spec, Z.bits_0.
    destruct (Z.lt_ge_cases n k) as [Hlt|Hge].
    - by rewrite Z.shiftl_spec_low.
    - destruct (Z.eq_dec b 0) as [->|Hb0]; [by rewrite Z.bits_0, andb_false_r|].
      rewrite (Z.bits_above_log2 b n), andb_false_r; [done | lia |].
      assert (Z.log2 b < k) by (apply Z.log2_lt_pow2; lia). lia. }
  by rewrite <- Z.lxor_lor, <- Z.add_nocarry_lxor, Z.shiftl_mul_pow2.
Qed.

Lemma code_bounds c : 0 ≤ Str.code c < 256.
Proof. unfold Str.code. pose proof (N_ascii_bounded c). lia. Qed.

Lemma code_inj c d : Str.code c = Str.code d → c = d.
Proof.
  unfold Str.code. intros H%(inj Z.of_N).
  by rewrite <- (ascii_N_embedding c), <- (ascii_N_embedding d), H.
Qed.

Lemma digit_value n :
  match String.index 0 (String (base64.digit n) EmptyString) base64.alphabet with
  | Some k => Z.of_nat k
  | None => -1
  end = Z.land n 63.
Proof.
  unfold base64.digit. pose proof (land63_bound n) as Hn.
  set (k := Z.to_nat (Z.land n 63)).
  assert (Hk : (k < 64)%nat) by lia.
  replace (Z.land n 63) with (Z.of_nat k) by lia.
  clearbody k. clear Hn.
  do 64 (destruct k as [|k]; [reflexivity|]). lia.
Qed.

Lemma digit_inj n m : base64.digit n = base64.digit m → Z.land n 63 = Z.land m 63.
Proof. intros H. by rewrite <- (digit_value n), <- (digit_value m), H. Qed.

Lemma digit_not_pad n : base64.digit n ≠ base64.pad.
Proof.
  intros H. pose proof (digit_value n) as Hv. rewrite H in Hv.
  pose proof (land63_bound n).
  change (-1 = Z.land n 63) in Hv. lia.
Qed.


Lemma radix64 n :
  0 ≤ n < 2 ^ 24 →
  n = Z.land (Z.shiftr n 18) 63 * 2 ^ 18 + Z.land (Z.shiftr n 12) 63 * 2 ^ 12
      + Z.land (Z.shiftr n 6) 63 * 2 ^ 6 + Z.land n 63.
Proof.
  intros Hn. change 63 with (Z.ones 6).
  rewrite !Z.land_ones, !Z.shiftr_div_pow2 by lia.
  change (2 ^ 24) with 16777216 in Hn.
  change (2 ^ 18) with 262144. change (2 ^ 12) with 4096. change (2 ^ 6) with 64.
  Z.div_mod_to_equations. lia.
Qed.

Lemma group3_value x y z :
  Z.lor (Z.lor (Z.shiftl (Str.code x) 16) (Z.shiftl (Str.code y) 8)) (Str.code z)
  = Str.code x * 65536 + Str.code y * 256 + Str.code z.
Proof.
  pose proof (code_bounds x). pose proof (code_bounds y). pose proof (code_bounds z).
  rewrite (Z.shiftl_mul_pow2 (Str.code x)) by lia.
  replace (Str.code x * 2 ^ 16) with (Z.shiftl (Str.code x * 256) 8)
    by (rewrite Z.shiftl_mul_pow2 by lia; change (2 ^ 16) with 65536;
        change (2 ^ 8) with 256; lia).
  rewrite <- Z.shiftl_lor.
  rewrite (lor_shiftl_add _ (Str.code z) 8) by (change (2 ^ 8) with 256; lia).
  change 8 with (Z.succ 7) at 1.
  replace (Z.lor (Str.code x * 256) (Str.code y))
    with (Str.code x * 256 + Str.code y).
  - change (2 ^ 8) with 256. lia.
  - rewrite <- (lor_shiftl_add _ (Str.code y) 8) by (change (2 ^ 8) with 256; lia).
    rewrite Z.shiftl_mul_pow2 by lia. by change (2 ^ 8) with 256.
Qed.


Lemma group2_value x y :
  Z.lor (Z.shiftl (Str.code x) 16) (Z.shiftl (Str.code y) 8)
  = Str.code x * 65536 + Str.code y * 256.
Proof.
  pose proof (group3_value x y "000") as H.
  change (Str.code "000") with 0 in H. by rewrite Z.lor_0_r, Z.add_0_r in H.
Qed.

Lemma group1_value x : Z.shiftl (Str.code x) 16 = Str.code x * 65536.
Proof. by rewrite Z.shiftl_mul_pow2. Qed.

Lemma sextets n m :
  Z.land n 63 = Z.land m 63 → n mod 64 = m mod 64.
Proof. change 63 with (Z.ones 6). by rewrite !Z.land_ones by lia. Qed.

Lemma string_cons_inj c s d t : String c s = String d t → c = d ∧ s = t.
Proof. by intros [= -> ->]. Qed.

Lemma encode_inj_bounded k a b :
  (String.length a ≤ k)%nat → base64.encode a = base64.encode b → a = b.
Proof.
  revert a b. induction k as [|k IH]; intros a b Hlen Heq.
  - destruct a; [|simpl in Hlen; lia].
    by destruct b as [|x [|y [|z r]]].
  - destruct a as [|x [|y [|z r]]], b as [|x' [|y' [|z' r']]];
      cbn [base64.encode] in Heq; try discriminate; try done;
      apply string_cons_inj in Heq as [H1 Heq];
      apply string_cons_inj in Heq as [H2 Heq];
      apply string_cons_inj in Heq as [H3 Heq];
      apply string_cons_inj in Heq as [H4 Heq];
      try (by apply digit_not_pad in H3);
      try (by symmetry in H3; apply digit_not_pad in H3);
      try (by apply digit_not_pad in H4);
      try (by symmetry in H4; apply digit_not_pad in H4).
    + apply digit_inj, sextets in H1, H2.
      rewrite !Z.shiftr_div_pow2, !group1_value in H1, H2 by lia.
      pose proof (code_bounds x). pose proof (code_bounds x').
      change (2 ^ 18) with 262144 in *. change (2 ^ 12) with 4096 in *.
      f_equal. apply code_inj. Z.div_mod_to_equations. lia.
    + apply digit_inj, sextets in H1, H2, H3.
      rewrite !Z.shiftr_div_pow2, !group2_value in H1, H2, H3 by lia.
      pose proof (code_bounds x). pose proof (code_bounds x').
      pose proof (code_bounds y). pose proof (code_bounds y').
      change (2 ^ 18) with 262144 in *. change (2 ^ 12) with 4096 in *.
      change (2 ^ 6) with 64 in *.
      assert (Str.code x = Str.code x' ∧ Str.code y = Str.code y') as [Hx Hy]
        by (Z.div_mod_to_equations; lia).
      by rewrite (code_inj _ _ Hx), (code_inj _ _ Hy).
    + apply digit_inj, sextets in H1, H2, H3, H4.
      rewrite !Z.shiftr_div_pow2, !group3_value in H1, H2, H3 by lia.
      rewrite !group3_value in H4.
      pose proof (code_bounds x). pose proof (code_bounds x').
      pose proof (code_bounds y). pose proof (code_bounds y').
      pose proof (code_bounds z). pose proof (code_bounds z').
      change (2 ^ 18) with 262144 in *. change (2 ^ 12) with 4096 in *.
      change (2 ^ 6) with 64 in *.
      assert (Str.code x = Str.code x' ∧ Str.code y = Str.code y'
              ∧ Str.code z = Str.code z') as (Hx & Hy & Hz)
        by (Z.div_mod_to_equations; lia).
      rewrite (code_inj _ _ Hx), (code_inj _ _ Hy), (code_inj _ _ Hz).
      do 3 f_equal. apply IH; [simpl in Hlen; lia | done].
Qed.

End Base64Injective.

Section Utf8Injective.

Lemma utf8_char_cases c :
  (Codec.utf8_char c = String c EmptyString ∧ Str.code c < 128)
  ∨ (∃ hi lo, Codec.utf8_char c = String hi (String lo EmptyString)
              ∧ 192 ≤ Str.code hi
              ∧ c = Str.chr ((Str.code hi - 192) * 64 + (Str.code lo - 128))).
Proof.
  destruct c as [[] [] [] [] [] [] [] []];
    first [ left; split; reflexivity
          | right; eexists _, _; split; [reflexivity|]; split; [by compute | reflexivity] ].
Qed.

Lemma utf8_inj s t : Codec.utf8 s = Codec.utf8 t → s = t.
Proof.
  unfold Codec.utf8. revert t. induction s as [|c s IH]; intros [|d t]; cbn [Str.flat_map].
  - done.
  - by destruct (utf8_char_cases d) as [[-> _]|(hi & lo & -> & _)].
  - by destruct (utf8_char_cases c) as [[-> _]|(hi & lo & -> & _)].
  - destruct (utf8_char_cases c) as [[-> Hc]|(hi & lo & -> & Hhi & Hc)],
             (utf8_char_cases d) as [[-> Hd]|(hi' & lo' & -> & Hhi' & Hd)];
      rewrite ?app_cons, ?app_nil_l.
    + intros [-> Hr]%string_cons_inj. by rewrite (IH _ Hr).
    + intros [-> _]%string_cons_inj. lia.
    + intros [<- _]%string_cons_inj. lia.
    + intros [-> [-> Hr]%string_cons_inj]%string_cons_inj.
      by rewrite Hc, Hd, (IH _ Hr).
Qed.

End Utf8Injective.

(** X26: the token determines the credentials.  Two invokers
    constructed under the same interpreter with the same authorization
    token have the same [user:password] string. *)
Theorem token_determines_credentials py method1 user1 password1 uri1 self1
    method2 user2 password2 uri2 self2 :
  HelpSpotAPI.__init__ py method1 user1 password1 uri1 = Return self1 →
  HelpSpotAPI.__init__ py method2 user2 password2 uri2 = Return self2 →
  HelpSpotAPI.authz self1 = HelpSpotAPI.authz self2 →
  user1 +:+ ":" +:+ password1 = user2 +:+ ":" +:+ password2.
Proof.
  intros (b1 & Hb1 & _ & _ & _ & Ha1 & _)%init_fields
         (b2 & Hb2 & _ & _ & _ & Ha2 & _)%init_fields Heq.
  rewrite Ha1, Ha2 in Heq.
  assert (Hb : b1 = b2).
  { destruct py; cbn [base64.b64encode Codec.rstrip] in Heq;
      rewrite !rstrip_encode in Heq; injection Heq as Heq;
      by apply (encode_inj_bounded (String.length b1)). }
  subst b2. destruct py.
  - unfold HelpSpotAPI.encode_utf8 in Hb1, Hb2.
    destruct (Str.forallb _ _), (Str.forallb _ _); by simplify_eq.
  - rewrite encode_utf8_python3 in Hb1, Hb2. apply utf8_inj. congruence.
Qed.

Lemma token_determines_credentials_witness :
  ∃ self1 self2,
    HelpSpotAPI.__init__ Python3 "private_version" "you@example.com" "idontknow"
      "http://helpdesk.example.com/help" = Return self1
    ∧ HelpSpotAPI.__init__ Python3 "request_create" "you@example.com" "idontknow"
        "http://other.example.com/" = Return self2
    ∧ HelpSpotAPI.authz self1 = HelpSpotAPI.authz self2
    ∧ "you@example.com" +:+ ":" +:+ "idontknow" = "you@example.com" +:+ ":" +:+ "idontknow".
Proof.
  eexists _, _. split; [reflexivity|]. split; [reflexivity|]. split; [reflexivity|].
  exact (token_determines_credentials Python3 "private_version" "you@example.com"
           "idontknow" "http://helpdesk.example.com/help" _ "request_create"
           "you@example.com" "idontknow" "http://other.example.com/" _
           eq_refl eq_refl eq_refl).
Defined.

(** X27: a colon in the user name is not told apart from the separator.
    The user [a:b] with password [c] and the user [a] with password
    [b:c] construct invokers with the same authorization token. *)
Theorem colon_in_user_ambiguous py method uri a b c self1 self2 :
  HelpSpotAPI.__init__ py method (a +:+ ":" +:+ b) c uri = Return self1 →
  HelpSpotAPI.__init__ py method a (b +:+ ":" +:+ c) uri = Return self2 →
  HelpSpotAPI.authz self1 = HelpSpotAPI.authz self2.
Proof.
  intros (b1 & Hb1 & _ & _ & _ & Ha1 & _)%init_fields
         (b2 & Hb2 & _ & _ & _ & Ha2 & _)%init_fields.
  rewrite !app_assoc in Hb1. rewrite Ha1, Ha2. congruence.
Qed.

Lemma colon_in_user_ambiguous_witness :
  ∃ self1 self2,
    HelpSpotAPI.__init__ Python2 "private_version" ("a" +:+ ":" +:+ "b") "c"
      "http://helpdesk.example.com/help" = Return self1
    ∧ HelpSpotAPI.__init__ Python2 "private_version" "a" ("b" +:+ ":" +:+ "c")
        "http://helpdesk.example.com/help" = Return self2
    ∧ HelpSpotAPI.authz self1 = HelpSpotAPI.authz self2.
Proof.
  eexists _, _. split; [reflexivity|]. split; [reflexivity|].
  exact (colon_in_user_ambiguous Python2 "private_version"
           "http://helpdesk.example.com/help" "a" "b" "c" _ _ eq_refl eq_refl).
Defined.
